(** * Co-culture knockout analysis: [interpolate_fluxes] and [calc_kos]

    A shallow embedding of the two functions of [cocultures.ipynb].

    - Python floats are IEEE binary64 numbers: they are Rocq's primitive
      [float]s, with the same operations ([1 - n], [*], [+], [<=]) and the
      same NaN, which pandas also uses as its marker of a missing value.
    - A pandas [Series] is the list of its (label, value) entries in listing
      order; labels may repeat.
    - A pandas [DataFrame] is an index and a list of named columns; names
      may repeat, and [df[col]] then yields a frame instead of a series.
    - A raised exception is the [Raise] branch of [result]; [x ← m; k] runs
      [k] only when [m] returned.
    - [set(...).union(set(...))] is a finite set ([gset string]) and
      [list(...)] of it is [elements]: an enumeration without repetition,
      whose order no statement below relies on.
    - micom's [Community], the assignment of its medium and [knockout_taxa]
      are library calls: they are the fields of a [Micom] record that
      [calc_kos] takes as an argument. *)

From Stdlib Require Import ZArith Lia Bool List String Ascii Floats DecimalString.
From stdpp Require Import base option list gmap strings sorting.

(** A decimal literal such as [0.1] denotes, as in Python, the binary64
    number nearest to it. *)
Set Warnings "-inexact-float".

(** ** Exceptions and results *)

Record exception := { exc_class : string; exc_msg : string }.

Definition ValueError (msg : string) : exception :=
  {| exc_class := "ValueError"; exc_msg := msg |}.
Definition KeyError (msg : string) : exception :=
  {| exc_class := "KeyError"; exc_msg := msg |}.
Definition AttributeError (msg : string) : exception :=
  {| exc_class := "AttributeError"; exc_msg := msg |}.

Inductive result (A : Type) : Type :=
| Return (a : A)
| Raise (e : exception).
Arguments Return {A} & a.
Arguments Raise {A} e.

#[global] Instance result_ret : MRet result := @Return.
#[global] Instance result_bind : MBind result :=
  fun A B f m => match m with Return a => f a | Raise e => Raise e end.

(** ** Series and data frames *)

Definition Series : Type := list (string * float).

(** [series.index] *)
Definition s_index (s : Series) : list string := s.*1.

(** The value a list of (label, value) entries gives first for a label. *)
Fixpoint lookup_first {A} (k : string) (l : list (string * A)) : option A :=
  match l with
  | [] => None
  | (k', v) :: rest => if decide (k' = k) then Some v else lookup_first k rest
  end.

Record DataFrame := { df_index : list string; df_columns : list (string * list float) }.

(** What [df[col]] yields: a series when one column carries the name, a
    frame of the columns that carry it when several do.  A series stands for
    itself where such an object is expected. *)
Inductive pdobject :=
| PdSeries (s : Series)
| PdFrame (df : DataFrame).
Coercion PdSeries : Series >-> pdobject.

(** [df[col]]: a KeyError when the frame has no such column. *)
Definition getitem (df : DataFrame) (col : string) : result pdobject :=
  match filter (fun c => c.1 = col) (df_columns df) with
  | [] => Raise (KeyError col)
  | [c] => Return (PdSeries (zip (df_index df) c.2))
  | cs => Return (PdFrame {| df_index := df_index df; df_columns := cs |})
  end.

(** [obj.index] *)
Definition pd_index (obj : pdobject) : list string :=
  match obj with
  | PdSeries s => s_index s
  | PdFrame df => df_index df
  end.

(** [index.duplicated(keep='first')]: true at every label seen earlier. *)
Fixpoint duplicated_from (seen : gset string) (idx : list string) : list bool :=
  match idx with
  | [] => []
  | k :: rest => bool_decide (k ∈ seen) :: duplicated_from ({[ k ]} ∪ seen) rest
  end.
Definition duplicated (idx : list string) : list bool := duplicated_from ∅ idx.

(** [series[m]] for a boolean mask [m]. *)
Definition mask (s : Series) (m : list bool) : Series :=
  (filter (fun p => p.2 = true) (zip s m)).*1.

(** The rows of a frame's index and columns that a boolean mask keeps. *)
Definition mask_rows {A} (l : list A) (m : list bool) : list A :=
  (filter (fun p => p.2 = true) (zip l m)).*1.

(** [obj[m]] for a boolean mask [m]: the entries of a series, the rows of a
    frame. *)
Definition pd_mask (obj : pdobject) (m : list bool) : pdobject :=
  match obj with
  | PdSeries s => PdSeries (mask s m)
  | PdFrame df =>
      PdFrame {| df_index := mask_rows (df_index df) m;
                 df_columns := (fun c => (c.1, mask_rows c.2 m)) <$> df_columns df |}
  end.

(** [series.reindex(new_index)]: the values at the new labels, NaN where the
    series has none; pandas refuses a series whose labels repeat. *)
Definition reindex (s : Series) (new_index : list string) : result (list float) :=
  if bool_decide (NoDup (s_index s))
  then Return ((fun r => default nan (lookup_first r s)) <$> new_index)
  else Raise (ValueError "cannot reindex on an axis with duplicate labels").

(** [combined_df[name] = obj.reindex(combined_df.index)] (lines 99 and 100):
    the values of the new column.  pandas sets one column from a series; it
    refuses a frame of several columns, which is what [df[col]] yields when
    it is not a series. *)
Definition reindexed_column (name : string) (obj : pdobject) (new_index : list string)
    : result (list float) :=
  match obj with
  | PdSeries s => reindex s new_index
  | PdFrame df =>
      if bool_decide (NoDup (df_index df))
      then Raise (ValueError ("Cannot set a DataFrame with multiple columns to the single column "
                              +:+ name))
      else Raise (ValueError "cannot reindex on an axis with duplicate labels")
  end.

(** [fillna(v)] on one column. *)
Definition fillna (v : float) (col : list float) : list float :=
  (fun x => if is_nan x then v else x) <$> col.

(** ** [interpolate_fluxes] (cell 1, lines 71-107 of the notebook file) *)

Definition interpolate_fluxes (medium_1 medium_2 : DataFrame) (n : float)
    (flux_col_1 flux_col_2 : string) : result Series :=
  if negb ((0 <=? n)%float && (n <=? 1)%float)
  then Raise (ValueError "n must be between 0 and 1")
  else
    medium_1_series ← getitem medium_1 flux_col_1;
    medium_2_series ← getitem medium_2 flux_col_2;
    let all_rxns : list string :=
      elements (list_to_set (pd_index medium_1_series)
                ∪ list_to_set (pd_index medium_2_series) : gset string) in
    let medium_1_series :=
      pd_mask medium_1_series (negb <$> duplicated (pd_index medium_1_series)) in
    let medium_2_series :=
      pd_mask medium_2_series (negb <$> duplicated (pd_index medium_2_series)) in
    medium_1_flux ← reindexed_column "medium_1_flux" medium_1_series all_rxns;
    medium_2_flux ← reindexed_column "medium_2_flux" medium_2_series all_rxns;
    let medium_1_flux := fillna 0%float medium_1_flux in
    let medium_2_flux := fillna 0%float medium_2_flux in
    Return (zip all_rxns
              (zip_with (fun a b => ((1 - n) * a + n * b)%float)
                 medium_1_flux medium_2_flux)).

(** What a profile contributes at a label once reindexed and filled: its
    first value there, and 0 where it has none or has NaN. *)
Definition flux_or_zero (p : Series) (r : string) : float :=
  let v := default nan (lookup_first r p) in if is_nan v then 0%float else v.

(** A flux profile holds real values: no NaN; finite ones: no infinity either. *)
Definition real_valued (p : Series) : Prop := Forall (fun kv => is_nan kv.2 = false) p.
Definition finite_valued (p : Series) : Prop := Forall (fun kv => is_finite kv.2 = true) p.

(** A medium whose only column, [flux], is the given profile. *)
Definition medium_of (s : Series) : DataFrame :=
  {| df_index := s.*1; df_columns := [("flux", s.*2)] |}.

Definition western : Series :=
  [("EX_glc", 10%float); ("EX_o2", 4%float); ("EX_glc", 99%float)].
Definition agrarian : Series :=
  [("EX_fib", 2%float); ("EX_glc", 0%float); ("EX_fib", 8%float)].

(** ** The model database and micom *)

(** An entry of the [id] column before [apply(str)]: a number or a string. *)
Inductive pyval :=
| PyInt (z : Z)
| PyStr (s : string).

(** Python's [str]. *)
Definition py_str (v : pyval) : string :=
  match v with
  | PyInt z => NilZero.string_of_int (Z.to_int z)
  | PyStr s => s
  end.

Record model_row := { row_id : pyval; row_file : string }.

(** The database frame: its rows under their index labels. *)
Definition ModelDB : Type := list (Z * model_row).

(** [agora_df.loc[indices,]]: the rows under each label, in the order of
    [indices]; a KeyError when a label is not in the index. *)
Fixpoint loc (agora_df : ModelDB) (indices : list Z) : result (list model_row) :=
  match indices with
  | [] => Return []
  | i :: rest =>
      match filter (fun r => r.1 = i) agora_df with
      | [] => Raise (KeyError (NilZero.string_of_int (Z.to_int i)))
      | hits => tl ← loc agora_df rest; Return (hits.*2 ++ tl)
      end
  end.

(** [tax['id'] = tax['id'].apply(str)] *)
Definition str_ids (tax : list model_row) : list model_row :=
  (fun r => {| row_id := PyStr (py_str (row_id r)); row_file := row_file r |}) <$> tax.

(** [list(tax.id)] *)
Definition tax_ids (tax : list model_row) : list string :=
  (fun r => py_str (row_id r)) <$> tax.

(** The three micom calls of the [try] block; each may raise. *)
Record Micom := {
  community : Type;
  Community : list model_row → result community;
  set_medium : community → Series → result community;
  knockout_taxa : community → result DataFrame
}.

Definition knockout_sweep (M : Micom) (tax : list model_row) (medium_series : Series)
    : result DataFrame :=
  com ← Community M tax;
  com ← set_medium M com medium_series;
  knockout_taxa M com.

(** ** The long table *)

(** What the [error] column may hold. *)
Inductive pyobj :=
| PyNone
| PyString (s : string)
| PyException (e : exception).

Record ko_row := {
  knockout : string;
  kept : string;
  kept_relative_change : float;
  error : pyobj;
  SampleID : string
}.

(** Python orders strings by code point, which is the byte order of
    [String.leb] on their UTF-8 form; [sorted] of strings is then any sort. *)
Definition str_le (a b : string) : Prop := String.leb a b = true.
#[global] Instance str_le_dec a b : Decision (str_le a b) :=
  bool_eq_dec (String.leb a b) true.
Definition sorted (l : list string) : list string := merge_sort str_le l.

(** The cells under the given row labels, column by column: one
    (row label, column name, value) triple per cell. *)
Definition wide_cells (labels : list string) (columns : list (string * list float))
    : list (string * string * float) :=
  c ← columns; (fun kv => (kv.1, c.1, kv.2)) <$> zip labels c.2.

(** The sweep's table once it has its column of labels: the columns named
    [knockout] (one, unless the table had several of that name) next to the
    columns of numbers. *)
Record LabelledFrame := {
  lf_index : list string;
  lf_knockout : list (list string);
  lf_columns : list (string * list float)
}.

(** The columns of numbers that a column named [knockout] leaves in place:
    those of another name. *)
Definition value_vars (ko : DataFrame) : list (string * list float) :=
  filter (fun c => c.1 ≠ "knockout") (df_columns ko).

(** [ko['knockout'] = ko.index] (line 52): a new column holds the index
    when no column has this name; the columns of numbers that have it, one
    or several, are overwritten with the index. *)
Definition setitem_knockout (ko : DataFrame) : LabelledFrame :=
  {| lf_index := df_index ko;
     lf_knockout :=
       match filter (fun c => c.1 = "knockout") (df_columns ko) with
       | [] => [df_index ko]
       | cs => (fun _ => df_index ko) <$> cs
       end;
     lf_columns := value_vars ko |}.

(** [ko.melt(id_vars=["knockout"], var_name="kept",
    value_name="kept_relative_change")] (lines 53-55): one row per cell of
    every column but [knockout], column by column.  pandas (from 2.0)
    refuses a [value_name] that is the name of a column of the frame, and
    then fails on an identifier variable that is not one column (with an
    exception whose class depends on its version). *)
Definition melt (ko : LabelledFrame) : result (list (string * string * float)) :=
  if decide ("kept_relative_change" ∈ (lf_columns ko).*1)
  then Raise (ValueError ("value_name (kept_relative_change) cannot match an element in "
                          +:+ "the DataFrame columns."))
  else match lf_knockout ko with
       | [labels] => Return (wide_cells labels (lf_columns ko))
       | _ => Raise (AttributeError "'DataFrame' object has no attribute 'dtype'")
       end.

(** [ko.dropna()] *)
Definition dropna (rows : list (string * string * float)) : list (string * string * float) :=
  filter (fun r => is_nan r.2 = false) rows.

(** The frame of the [except] branch: [pd.DataFrame] of three columns of
    lengths [len(ids)], [len(ids)] and 2, which pandas builds only when the
    lengths agree. *)
Definition fallback_frame (ids : list string) : result (list (string * string * float)) :=
  if decide (length ids = 2)
  then Return (zip (zip ids (reverse ids)) [nan; nan])
  else Raise (ValueError "All arrays must be of the same length").

(** [ko['error'] = e] *)
Definition set_error (ko : list (string * string * float)) (e : pyobj)
    : list (string * string * float * pyobj) :=
  (fun r => (r, e)) <$> ko.

(** [ko['SampleID'] = label] *)
Definition set_SampleID (ko : list (string * string * float * pyobj)) (label : string)
    : list ko_row :=
  (fun r => {| knockout := r.1.1.1; kept := r.1.1.2; kept_relative_change := r.1.2;
               error := r.2; SampleID := label |}) <$> ko.

(** ** [calc_kos] (cell 1, lines 30-68 of the notebook file) *)

(** The body of the [try] (lines 43-57): the three micom calls, then the
    table is made long, loses its rows without a value and gets its [error]
    column.  An exception of any of these steps is one of the block. *)
Definition try_block (M : Micom) (tax : list model_row) (medium_series : Series)
    : result (list (string * string * float * pyobj)) :=
  ko ← knockout_sweep M tax medium_series;
  ko ← melt (setitem_knockout ko);
  Return (set_error (dropna ko) (PyString "None")).

Definition calc_kos (M : Micom) (medium_series : Series) (agora_df : ModelDB)
    (indices : list Z) : result (list ko_row) :=
  tax ← loc agora_df indices;
  let tax := str_ids tax in
  ko ← match try_block M tax medium_series with
       | Return ko => Return ko
       | Raise e =>
           ko ← fallback_frame (tax_ids tax);
           Return (set_error ko (PyException e))
       end;
  Return (set_SampleID ko (String.concat "_" (sorted (tax_ids tax)))).

(** The community label of a list of member identifiers. *)
Definition community_label (ids : list string) : string :=
  String.concat "_" (sorted ids).

(** The cells of the sweep's table as micom returns it. *)
Definition cells (ko : DataFrame) : list (string * string * float) :=
  wide_cells (df_index ko) (df_columns ko).


(** Modelled from the spec: the table a successful leave-one-out sweep
    returns for the members [ids], which is micom's and not in the
    notebook: indexed by knockout identity, one column per member, and with
    no value for a member's effect on itself ([diag=False]). *)
Definition sweep_table (ids : list string) (ko : DataFrame) : Prop :=
  NoDup ids
  ∧ df_index ko ≡ₚ ids
  ∧ (df_columns ko).*1 ≡ₚ ids
  ∧ Forall (fun c => length c.2 = length ids) (df_columns ko)
  ∧ Forall (fun cell => cell.1.1 = cell.1.2 → is_nan cell.2 = true) (cells ko).


(** The binary64 number 1 as sign, mantissa and exponent. *)
Definition SFone64 : spec_float := S754_finite false 4503599627370496 (-52).

(** ** Sample data *)

Definition agora_sample : ModelDB :=
  [ (0%Z, {| row_id := PyStr "x"; row_file := "x.json" |});
    (1%Z, {| row_id := PyInt 7; row_file := "seven.json" |});
    (5%Z, {| row_id := PyStr "11"; row_file := "eleven.json" |});
    (10%Z, {| row_id := PyInt 3; row_file := "three.json" |}) ].

(** A micom whose sweep returns the table [t]. *)
Definition micom_returning (t : DataFrame) : Micom :=
  {| community := list model_row;
     Community := fun tax => Return tax;
     set_medium := fun com _ => Return com;
     knockout_taxa := fun _ => Return t |}.

(** A micom whose sweep raises [e]. *)
Definition micom_raising (e : exception) : Micom :=
  {| community := list model_row;
     Community := fun tax => Return tax;
     set_medium := fun com _ => Return com;
     knockout_taxa := fun _ => Raise e |}.

Definition infeasible : exception :=
  {| exc_class := "OptimizationError"; exc_msg := "infeasible" |}.

(** Removing "7" lowers the growth of "3" by 20%, removing "3" that of "7"
    by 10%. *)
Definition ko_sample : DataFrame :=
  {| df_index := ["3"; "7"];
     df_columns := [("3", [nan; (-0.2)%float]); ("7", [(-0.1)%float; nan])] |}.

(** A sweep over "7", "3" and "11" in which the growth of "11" without "7"
    could not be computed. *)
Definition ko_sample3 : DataFrame :=
  {| df_index := ["11"; "3"; "7"];
     df_columns := [ ("11", [nan; (-0.5)%float; nan]);
                     ("3", [0.1%float; nan; (-0.2)%float]);
                     ("7", [0%float; (-0.1)%float; nan]) ] |}.



(** A member named as the value column of the long table. *)
Definition agora_value_name : ModelDB :=
  [ (0%Z, {| row_id := PyStr "kept_relative_change"; row_file := "k.json" |});
    (1%Z, {| row_id := PyStr "b"; row_file := "b.json" |});
    (2%Z, {| row_id := PyStr "c"; row_file := "c.json" |}) ].

Definition ko_value_name : DataFrame :=
  {| df_index := ["kept_relative_change"; "b"];
     df_columns := [("kept_relative_change", [nan; 0.25%float]); ("b", [0.5%float; nan])] |}.

(** A diet with two columns named [flux]. *)
Definition two_flux_columns : DataFrame :=
  {| df_index := ["EX_glc"; "EX_o2"];
     df_columns := [("flux", [10%float; 4%float]); ("flux", [1%float; 2%float])] |}.

(** ** The notebook's run (cell 2, after [warnings.filterwarnings]) *)




(** ** Notions the statements use *)

(** The guard of [interpolate_fluxes]: [0 <= n <= 1]. *)
Definition in_unit_interval (n : float) : bool := (0 <=? n)%float && (n <=? 1)%float.

(** The names of a frame's columns. *)
Definition column_names (df : DataFrame) : list string := (df_columns df).*1.

(** How many columns of a frame carry a name. *)
Definition column_count (df : DataFrame) (col : string) : nat :=
  length (filter (fun c => c.1 = col) (df_columns df)).

(** A database whose [id] column already holds the string of every id. *)
Definition stringified (agora_df : ModelDB) : ModelDB :=
  (fun ir => (ir.1, {| row_id := PyStr (py_str (row_id ir.2)); row_file := row_file ir.2 |}))
    <$> agora_df.

(** Whether a string holds the separator of the community label. *)
Fixpoint has_underscore (s : string) : bool :=
  match s with
  | EmptyString => false
  | String c rest => Ascii.eqb c "_" || has_underscore rest
  end.

(** An identifier that is not empty and holds no underscore. *)
Definition plain_id (s : string) : Prop := s ≠ EmptyString ∧ has_underscore s = false.

(** * Facts about binary64 arithmetic

    Each fact is read off the specification of the primitive operation
    ([Prim2SF] of a sum is [SF64add] of the [Prim2SF]s, and so on). *)

Section float_facts.
Local Open Scope float_scope.

(** NaN is the one number not equal to itself; the finite numbers are the
    zeros and the numbers with a mantissa. *)
Lemma SFcompare_refl s : s <> S754_nan -> SFcompare s s = Some Eq.
Proof.
  destruct s as [b|b| |b m e]; simpl; intros H; try congruence.
  - destruct b; reflexivity.
  - rewrite Z.compare_refl. destruct b; rewrite ?Pos.compare_cont_refl; reflexivity.
Qed.

Lemma float_is_nan_spec x :
  is_nan x = match Prim2SF x with S754_nan => true | _ => false end.
Proof.
  unfold is_nan. rewrite FloatAxioms.eqb_spec. unfold SFeqb.
  destruct (Prim2SF x) eqn:E; try (rewrite SFcompare_refl by congruence; reflexivity).
  reflexivity.
Qed.

Lemma float_is_finite_spec x :
  is_finite x =
  match Prim2SF x with S754_zero _ | S754_finite _ _ _ => true | _ => false end.
Proof.
  unfold is_finite. rewrite float_is_nan_spec. unfold is_infinity.
  rewrite FloatAxioms.eqb_spec, FloatAxioms.abs_spec.
  change (Prim2SF infinity) with (S754_infinity false).
  destruct (Prim2SF x) as [b|b| |b m e]; reflexivity.
Qed.

(** Multiplying by 1 changes nothing: the product of the mantissas is the
    mantissa shifted left by 52 bits, which rounding shifts back exactly. *)
Lemma shr_1_iter52 m :
  SpecFloat.iter_pos shr_1 52 (Build_shr_record (Z.pos (4503599627370496 * m)) false false)
  = Build_shr_record (Z.pos m) false false.
Proof. reflexivity. Qed.

Lemma digits2_pos_shift52 m :
  digits2_pos (4503599627370496 * m) = (digits2_pos m + 52)%positive.
Proof. cbv [Pos.mul digits2_pos]. fold digits2_pos. lia. Qed.

Lemma SFmul_1_l s :
  valid_binary s = true -> SF64mul SFone64 s = s.
Proof.
  destruct s as [b|b| |b m e]; intros V; try reflexivity.
  cbn [valid_binary] in V. unfold bounded, canonical_mantissa in V.
  apply andb_prop in V. destruct V as [C B].
  apply Z.eqb_eq in C. apply Z.leb_le in B.
  unfold SF64mul, SFone64, SFmul, binary_round_aux.
  unfold shr_fexp at 1. unfold Zdigits2. rewrite digits2_pos_shift52.
  assert (E1 : (fexp prec emax (Z.pos (digits2_pos m + 52) + (-52 + e)) - (-52 + e) = 52)%Z).
  { unfold fexp in *. lia. }
  rewrite E1. cbn [shr shr_record_of_loc]. rewrite shr_1_iter52.
  cbn [shr_m loc_of_shr_record round_nearest_even].
  unfold shr_fexp. unfold Zdigits2.
  replace (-52 + e + 52)%Z with e by lia.
  rewrite C, Z.sub_diag. cbn [shr shr_record_of_loc shr_m xorb].
  apply Z.leb_le in B. rewrite B. reflexivity.
Qed.

Lemma float_mul_1_l x : 1 * x = x.
Proof.
  apply Prim2SF_inj. rewrite FloatAxioms.mul_spec.
  change (Prim2SF 1) with SFone64.
  apply SFmul_1_l, Prim2SF_valid.
Qed.

(** Comparison: [x < y] excludes [y <= x]. *)
Lemma SFcompare_antisym x y :
  SFcompare y x = option_map CompOpp (SFcompare x y).
Proof.
  destruct x as [bx|bx| |bx mx ex], y as [b_y|b_y| |b_y my ey]; cbn [SFcompare option_map];
    try reflexivity; try (destruct bx; reflexivity); try (destruct b_y; reflexivity);
    try (destruct bx, b_y; reflexivity).
  rewrite (Z.compare_antisym ex ey).
  replace (Pos.compare_cont Eq my mx) with (CompOpp (Pos.compare_cont Eq mx my))
    by apply (Pos.compare_cont_antisym mx my Eq).
  destruct bx, b_y; cbn [CompOpp]; try reflexivity;
    destruct (ex ?= ey)%Z; cbn [CompOpp]; rewrite ?CompOpp_involutive; reflexivity.
Qed.

Lemma float_ltb_leb_false x y : (x <? y) = true -> (y <=? x) = false.
Proof.
  rewrite FloatAxioms.ltb_spec, FloatAxioms.leb_spec. unfold SFltb, SFleb.
  rewrite (SFcompare_antisym (Prim2SF x) (Prim2SF y)).
  destruct (SFcompare (Prim2SF x) (Prim2SF y)) as [[ | | ]|]; cbn; congruence.
Qed.

(** Addition commutes. *)
Lemma SFadd_comm x y : SF64add x y = SF64add y x.
Proof.
  unfold SF64add.
  destruct x as [bx|bx| |bx mx ex], y as [b_y|b_y| |b_y my ey]; cbn [SFadd];
    try reflexivity; try (destruct bx, b_y; reflexivity).
  rewrite (Z.min_comm ey ex), Z.add_comm. reflexivity.
Qed.

Lemma float_add_comm x y : x + y = y + x.
Proof. apply Prim2SF_inj. rewrite !FloatAxioms.add_spec. apply SFadd_comm. Qed.

(** Zero times a finite number is a zero, and adding a zero to a finite
    number gives a number equal to it: the same one, unless the number is
    the negative zero. *)
Lemma float_mul_0_l_finite b :
  is_finite b = true -> exists s, Prim2SF (0 * b) = S754_zero s.
Proof.
  rewrite float_is_finite_spec, FloatAxioms.mul_spec. change (Prim2SF 0) with (S754_zero false).
  destruct (Prim2SF b) as [s|s| |s m e]; try discriminate; intros _;
    eexists; reflexivity.
Qed.

Lemma float_add_zero_r_eqb a z s :
  is_finite a = true -> Prim2SF z = S754_zero s -> (a + z =? a) = true.
Proof.
  rewrite float_is_finite_spec, FloatAxioms.eqb_spec, FloatAxioms.add_spec. intros Ha ->.
  destruct (Prim2SF a) as [sa|sa| |sa m e]; try discriminate.
  - destruct sa, s; reflexivity.
  - cbn [SF64add SFadd]. unfold SFeqb. rewrite SFcompare_refl; congruence.
Qed.

Lemma float_add_zero_r_exact a z s :
  is_finite a = true -> Prim2SF z = S754_zero s -> a <> neg_zero -> a + z = a.
Proof.
  rewrite float_is_finite_spec. intros Ha Hz Hn.
  apply Prim2SF_inj. rewrite FloatAxioms.add_spec, Hz.
  destruct (Prim2SF a) as [sa|sa| |sa m e] eqn:E; try discriminate.
  - destruct sa.
    + exfalso. apply Hn. apply Prim2SF_inj. rewrite E. reflexivity.
    + destruct s; reflexivity.
  - reflexivity.
Qed.

Lemma float_add_zero_l_eqb b z s :
  is_finite b = true -> Prim2SF z = S754_zero s -> (z + b =? b) = true.
Proof. intros. rewrite float_add_comm. eapply float_add_zero_r_eqb; eauto. Qed.

(** The interpolation formula at the factors 0 and 1. *)
Lemma float_interp_at_0 a b :
  is_finite a = true -> is_finite b = true -> ((1 - 0) * a + 0 * b =? a) = true.
Proof.
  intros Ha Hb. change (1 - 0) with 1. rewrite float_mul_1_l.
  destruct (float_mul_0_l_finite b Hb) as [s Hs]. eapply float_add_zero_r_eqb; eauto.
Qed.

Lemma float_interp_at_0_exact a b :
  is_finite a = true -> is_finite b = true -> a <> neg_zero -> (1 - 0) * a + 0 * b = a.
Proof.
  intros Ha Hb Hn. change (1 - 0) with 1. rewrite float_mul_1_l.
  destruct (float_mul_0_l_finite b Hb) as [s Hs]. eapply float_add_zero_r_exact; eauto.
Qed.

Lemma float_interp_at_1_exact a b :
  is_finite a = true -> is_finite b = true -> b <> neg_zero -> (1 - 1) * a + 1 * b = b.
Proof.
  intros Ha Hb Hn. change (1 - 1) with 0. rewrite float_mul_1_l, float_add_comm.
  destruct (float_mul_0_l_finite a Ha) as [s Hs]. eapply float_add_zero_r_exact; eauto.
Qed.

Lemma float_interp_at_1 a b :
  is_finite a = true -> is_finite b = true -> ((1 - 1) * a + 1 * b =? b) = true.
Proof.
  intros Ha Hb. change (1 - 1) with 0. rewrite float_mul_1_l.
  destruct (float_mul_0_l_finite a Ha) as [s Hs]. eapply float_add_zero_l_eqb; eauto.
Qed.

(** Nothing is below or equal to NaN. *)
Lemma float_leb_nan_r x y : is_nan y = true -> (x <=? y) = false.
Proof.
  rewrite float_is_nan_spec, FloatAxioms.leb_spec. unfold SFleb.
  destruct (Prim2SF y); try discriminate. intros _.
  destruct (Prim2SF x); reflexivity.
Qed.

End float_facts.

(** * Order on strings and [sorted] *)







(** * Series: duplicate labels, reindexing *)

Lemma mask_cons (kv : string * float) (s : Series) (b : bool) (m : list bool) :
  mask (kv :: s) (b :: m) = if b then kv :: mask s m else mask s m.
Proof.
  unfold mask. cbn [zip zip_with]. rewrite filter_cons. cbn [snd].
  destruct b; case_decide; try congruence; reflexivity.
Qed.

Lemma lookup_first_drop_duplicates (seen : gset string) (s : Series) (r : string) :
  lookup_first r (mask s (negb <$> duplicated_from seen (s_index s)))
  = if decide (r ∈ seen) then None else lookup_first r s.
Proof.
  revert seen. induction s as [|[k v] s IH]; intros seen.
  - cbn. case_decide; reflexivity.
  - cbn [s_index fmap list_fmap fst duplicated_from]. fold (s_index s).
    rewrite mask_cons. cbn [lookup_first].
    destruct (bool_decide_reflect (k ∈ seen)) as [Hk|Hk]; cbn [negb].
    + rewrite IH. repeat case_decide; subst; try reflexivity; set_solver.
    + cbn [lookup_first]. rewrite IH.
      repeat case_decide; subst; try reflexivity; set_solver.
Qed.

Lemma drop_duplicates_index (seen : gset string) (s : Series) :
  NoDup (s_index (mask s (negb <$> duplicated_from seen (s_index s))))
  ∧ ∀ k, k ∈ s_index (mask s (negb <$> duplicated_from seen (s_index s))) → k ∉ seen.
Proof.
  revert seen. induction s as [|[k v] s IH]; intros seen.
  - cbn. split; [constructor | intros k Hk; inversion Hk].
  - cbn [s_index fmap list_fmap fst duplicated_from]. fold (s_index s).
    rewrite mask_cons.
    destruct (IH ({[k]} ∪ seen)) as [ND Hn].
    destruct (bool_decide_reflect (k ∈ seen)) as [Hk|Hk]; cbn [negb].
    + split; [exact ND | intros k' Hk'; specialize (Hn k' Hk'); set_solver].
    + cbn [s_index fmap list_fmap fst]. fold (s_index (mask s (negb <$> duplicated_from ({[k]} ∪ seen) (s_index s)))).
      split.
      * constructor; [|exact ND]. intros Hin. specialize (Hn k Hin). set_solver.
      * intros k' Hk'. apply elem_of_cons in Hk' as [->|Hk']; [exact Hk|].
        specialize (Hn k' Hk'). set_solver.
Qed.

Lemma reindex_drop_duplicates (s : Series) (new_index : list string) :
  reindex (mask s (negb <$> duplicated (s_index s))) new_index
  = Return ((fun r => default nan (lookup_first r s)) <$> new_index).
Proof.
  unfold reindex, duplicated.
  rewrite bool_decide_eq_true_2 by apply drop_duplicates_index.
  f_equal. apply list_fmap_ext. intros _ r _.
  rewrite lookup_first_drop_duplicates. case_decide; [set_solver | reflexivity].
Qed.

Lemma zip_zip_with_fmap {A B C D} (f : B → C → D) (g : A → B) (h : A → C) (l : list A) :
  zip l (zip_with f (g <$> l) (h <$> l)) = (fun r => (r, f (g r) (h r))) <$> l.
Proof. induction l as [|x l IH]; cbn; [reflexivity | by rewrite IH]. Qed.

Lemma lookup_first_Some_elem {A} (r : string) (v : A) (l : list (string * A)) :
  lookup_first r l = Some v → (r, v) ∈ l.
Proof.
  induction l as [|[k w] l IH]; cbn; [discriminate|].
  case_decide as Hd; subst.
  - intros [= ->]. left.
  - intros Hl. right. auto.
Qed.

Lemma lookup_first_app_cons {A} (r : string) (v : A) (pre post : list (string * A)) :
  r ∉ pre.*1 → lookup_first r (pre ++ (r, v) :: post) = Some v.
Proof.
  induction pre as [|[k w] pre IH]; cbn; intros Hn.
  - case_decide; congruence.
  - apply not_elem_of_cons in Hn as [Hne Hn]. case_decide; [congruence | auto].
Qed.

(** A label of a series whose labels are pairwise distinct is the label of
    exactly one entry. *)
Lemma count_label_absent (s : list (string * float)) (r : string) :
  r ∉ s_index s → filter (fun kv : string * float => kv.1 = r) s = [].
Proof.
  induction s as [|[k v] s IH]; intros Hr; [reflexivity|].
  cbn [s_index fmap list_fmap fst] in Hr. apply not_elem_of_cons in Hr as [Hne Hr].
  rewrite filter_cons_False by (cbn; congruence). apply IH, Hr.
Qed.

Lemma count_label_NoDup (s : list (string * float)) (r : string) :
  NoDup (s_index s) → r ∈ s_index s →
  length (filter (fun kv : string * float => kv.1 = r) s) = 1.
Proof.
  induction s as [|[k v] s IH]; intros ND Hr; [inversion Hr|].
  cbn [s_index fmap list_fmap fst] in ND, Hr. apply NoDup_cons in ND as [Hk ND].
  destruct (decide (k = r)) as [->|Hne].
  - rewrite filter_cons_True by reflexivity.
    rewrite count_label_absent by exact Hk. reflexivity.
  - rewrite filter_cons_False by (cbn; congruence).
    apply IH; [exact ND|]. apply elem_of_cons in Hr as [->|Hr]; [contradiction | exact Hr].
Qed.

(** * [interpolate_fluxes] *)

(** What one profile contributes at a label after [reindex] and [fillna(0)]. *)
Lemma interpolate_fluxes_unfold (medium_1 medium_2 : DataFrame) (n : float)
    (flux_col_1 flux_col_2 : string) (A B : Series) :
  getitem medium_1 flux_col_1 = Return A →
  getitem medium_2 flux_col_2 = Return B →
  (0 <=? n)%float = true → (n <=? 1)%float = true →
  interpolate_fluxes medium_1 medium_2 n flux_col_1 flux_col_2
  = Return ((fun r => (r, ((1 - n) * flux_or_zero A r + n * flux_or_zero B r)%float))
              <$> elements (list_to_set (s_index A) ∪ list_to_set (s_index B) : gset string)).
Proof.
  intros HA HB H0 H1. unfold interpolate_fluxes.
  rewrite H0, H1, HA, HB.
  cbn [andb negb mbind result_bind pd_index pd_mask reindexed_column].
  rewrite !reindex_drop_duplicates. cbn [mbind result_bind].
  unfold fillna. rewrite <- !list_fmap_compose.
  rewrite zip_zip_with_fmap. reflexivity.
Qed.

Lemma flux_or_zero_real_valued (p : Series) (r : string) :
  real_valued p → flux_or_zero p r = default 0%float (lookup_first r p).
Proof.
  intros Hp. unfold flux_or_zero. cbv zeta.
  destruct (lookup_first r p) as [v|] eqn:E; cbn [default from_option]; unfold id; [|reflexivity].
  apply lookup_first_Some_elem in E.
  unfold real_valued in Hp. rewrite Forall_forall in Hp.
  specialize (Hp _ E). cbn in Hp. rewrite Hp. reflexivity.
Qed.

Lemma finite_valued_real_valued (p : Series) : finite_valued p → real_valued p.
Proof.
  intros Hp. eapply Forall_impl; [exact Hp|]. intros [k v]; cbn. unfold is_finite.
  destruct (is_nan v); [discriminate | reflexivity].
Qed.

Lemma flux_or_zero_finite (p : Series) (r : string) :
  finite_valued p → is_finite (flux_or_zero p r) = true.
Proof.
  intros Hp. rewrite flux_or_zero_real_valued by by apply finite_valued_real_valued.
  destruct (lookup_first r p) as [v|] eqn:E; cbn [default from_option]; unfold id; [|reflexivity].
  apply lookup_first_Some_elem in E.
  unfold finite_valued in Hp. rewrite Forall_forall in Hp. exact (Hp _ E).
Qed.

Lemma s_index_fmap_pair (f : string → float) (l : list string) :
  s_index ((fun r => (r, f r)) <$> l) = l.
Proof.
  unfold s_index. rewrite <- list_fmap_compose. apply list_fmap_id.
Qed.

Lemma elem_of_union_index (A B : Series) (r : string) :
  r ∈ elements (list_to_set (s_index A) ∪ list_to_set (s_index B) : gset string)
  ↔ r ∈ s_index A ∨ r ∈ s_index B.
Proof. rewrite elem_of_elements, elem_of_union, !elem_of_list_to_set. reflexivity. Qed.

Lemma elem_of_fmap_pair (f : string → float) (l : list string) (r : string) (v : float) :
  (r, v) ∈ (fun r => (r, f r)) <$> l → v = f r ∧ r ∈ l.
Proof.
  intros H. apply list_elem_of_fmap in H as (r' & [= -> ->] & Hr). auto.
Qed.

Lemma interpolate_fluxes_real_valued (medium_1 medium_2 : DataFrame) (n : float)
    (flux_col_1 flux_col_2 : string) (A B : Series) :
  getitem medium_1 flux_col_1 = Return A →
  getitem medium_2 flux_col_2 = Return B →
  real_valued A → real_valued B →
  (0 <=? n)%float = true → (n <=? 1)%float = true →
  interpolate_fluxes medium_1 medium_2 n flux_col_1 flux_col_2
  = Return ((fun r => (r, ((1 - n) * default 0 (lookup_first r A)
                           + n * default 0 (lookup_first r B))%float))
              <$> elements (list_to_set (s_index A) ∪ list_to_set (s_index B) : gset string)).
Proof.
  intros HA HB RA RB H0 H1.
  rewrite (interpolate_fluxes_unfold _ _ _ _ _ A B) by assumption.
  f_equal. apply list_fmap_ext. intros _ r _.
  rewrite !flux_or_zero_real_valued by assumption. reflexivity.
Qed.

(** C1. For profiles [A] and [B] (the flux columns of the two media, with
    real values) and a factor [0 <= f <= 1], [interpolate_fluxes] returns a
    series whose labels are exactly the labels of [A] or of [B], and whose
    value at each label [r] is [(1 - f) * a + f * b], where [a] is the first
    value [A] lists for [r] if there is one and [0] otherwise, and [b]
    likewise for [B]. *)
Theorem interpolate_fluxes_affine (medium_1 medium_2 : DataFrame) (f : float)
    (flux_col_1 flux_col_2 : string) (A B : Series) :
  getitem medium_1 flux_col_1 = Return A →
  getitem medium_2 flux_col_2 = Return B →
  real_valued A → real_valued B →
  (0 <=? f)%float = true → (f <=? 1)%float = true →
  ∃ out : Series,
    interpolate_fluxes medium_1 medium_2 f flux_col_1 flux_col_2 = Return out
    ∧ (∀ r, r ∈ s_index out ↔ r ∈ s_index A ∨ r ∈ s_index B)
    ∧ (∀ r v, (r, v) ∈ out →
         v = ((1 - f) * default 0 (lookup_first r A)
              + f * default 0 (lookup_first r B))%float).
Proof.
  intros HA HB RA RB H0 H1. eexists. split; [|split].
  - apply (interpolate_fluxes_real_valued _ _ _ _ _ A B); assumption.
  - intros r. rewrite s_index_fmap_pair. apply elem_of_union_index.
  - intros r v Hin. apply elem_of_fmap_pair in Hin as [-> _]. reflexivity.
Qed.

Lemma interpolate_fluxes_affine_witness :
  ∃ out : Series,
    interpolate_fluxes (medium_of western) (medium_of agrarian) 0.25 "flux" "flux" = Return out
    ∧ (∀ r, r ∈ s_index out ↔ r ∈ s_index western ∨ r ∈ s_index agrarian)
    ∧ (∀ r v, (r, v) ∈ out →
         v = ((1 - 0.25) * default 0 (lookup_first r western)
              + 0.25 * default 0 (lookup_first r agrarian))%float).
Proof.
  apply (interpolate_fluxes_affine (medium_of western) (medium_of agrarian) 0.25
           "flux" "flux" western agrarian).
  - reflexivity.
  - reflexivity.
  - repeat constructor.
  - repeat constructor.
  - reflexivity.
  - reflexivity.
Defined.

(** C3. A factor below 0 or above 1 (such as -0.1 and 1.1) makes
    [interpolate_fluxes] raise the ValueError of its guard, whatever the two
    media are; nothing is returned, and the guard comes before any use of the
    media. *)
Theorem interpolate_fluxes_invalid_factor (medium_1 medium_2 : DataFrame) (f : float)
    (flux_col_1 flux_col_2 : string) :
  (f <? 0)%float = true ∨ (1 <? f)%float = true →
  interpolate_fluxes medium_1 medium_2 f flux_col_1 flux_col_2
  = Raise (ValueError "n must be between 0 and 1").
Proof.
  intros Hf. unfold interpolate_fluxes.
  destruct Hf as [Hf|Hf]; apply float_ltb_leb_false in Hf; rewrite Hf.
  - reflexivity.
  - rewrite andb_false_r. reflexivity.
Qed.

Lemma interpolate_fluxes_invalid_factor_witness :
  interpolate_fluxes (medium_of western) (medium_of agrarian) (-0.1) "flux" "flux"
  = Raise (ValueError "n must be between 0 and 1")
  ∧ interpolate_fluxes (medium_of western) (medium_of agrarian) 1.1 "flux" "flux"
    = Raise (ValueError "n must be between 0 and 1").
Proof.
  split.
  - apply (interpolate_fluxes_invalid_factor _ _ (-0.1)%float). left. reflexivity.
  - apply (interpolate_fluxes_invalid_factor _ _ 1.1%float). right. reflexivity.
Defined.

(** C7. With finite flux values, factor 0 gives back profile [A] and factor 1
    gives back profile [B] on the union of their labels: at every label the
    output equals (as floats compare, [==]) the first value the profile lists
    for it, or 0 where it lists none, and it is the very same float unless
    that value is the negative zero.  The output is a function of the two
    profiles and the factor alone: any other call on media with the same
    flux columns returns the same result. *)
Theorem interpolate_fluxes_endpoints (medium_1 medium_2 : DataFrame)
    (flux_col_1 flux_col_2 : string) (A B : Series) :
  getitem medium_1 flux_col_1 = Return A →
  getitem medium_2 flux_col_2 = Return B →
  finite_valued A → finite_valued B →
  (∃ out : Series,
      interpolate_fluxes medium_1 medium_2 0 flux_col_1 flux_col_2 = Return out
      ∧ (∀ r, r ∈ s_index out ↔ r ∈ s_index A ∨ r ∈ s_index B)
      ∧ (∀ r v, (r, v) ∈ out →
           let a := default 0%float (lookup_first r A) in
           (v =? a)%float = true ∧ (a ≠ neg_zero → v = a)))
  ∧ (∃ out : Series,
      interpolate_fluxes medium_1 medium_2 1 flux_col_1 flux_col_2 = Return out
      ∧ (∀ r, r ∈ s_index out ↔ r ∈ s_index A ∨ r ∈ s_index B)
      ∧ (∀ r v, (r, v) ∈ out →
           let b := default 0%float (lookup_first r B) in
           (v =? b)%float = true ∧ (b ≠ neg_zero → v = b)))
  ∧ (∀ (f : float) (medium_1' medium_2' : DataFrame) (flux_col_1' flux_col_2' : string),
      getitem medium_1' flux_col_1' = Return A →
      getitem medium_2' flux_col_2' = Return B →
      interpolate_fluxes medium_1' medium_2' f flux_col_1' flux_col_2'
      = interpolate_fluxes medium_1 medium_2 f flux_col_1 flux_col_2).
Proof.
  intros HA HB FA FB.
  assert (RA := finite_valued_real_valued _ FA).
  assert (RB := finite_valued_real_valued _ FB).
  split; [|split].
  - eexists. split; [|split].
    + apply (interpolate_fluxes_real_valued _ _ _ _ _ A B); auto.
    + intros r. rewrite s_index_fmap_pair. apply elem_of_union_index.
    + intros r v Hin a. apply elem_of_fmap_pair in Hin as [-> _].
      assert (Fa := flux_or_zero_finite A r FA).
      assert (Fb := flux_or_zero_finite B r FB).
      rewrite !flux_or_zero_real_valued in Fa, Fb by assumption.
      split; [apply float_interp_at_0 | apply float_interp_at_0_exact]; assumption.
  - eexists. split; [|split].
    + apply (interpolate_fluxes_real_valued _ _ _ _ _ A B); auto.
    + intros r. rewrite s_index_fmap_pair. apply elem_of_union_index.
    + intros r v Hin b. apply elem_of_fmap_pair in Hin as [-> _].
      assert (Fa := flux_or_zero_finite A r FA).
      assert (Fb := flux_or_zero_finite B r FB).
      rewrite !flux_or_zero_real_valued in Fa, Fb by assumption.
      split; [apply float_interp_at_1 | apply float_interp_at_1_exact]; assumption.
  - intros f m1' m2' c1' c2' HA' HB'.
    unfold interpolate_fluxes. rewrite HA, HB, HA', HB'. reflexivity.
Qed.

Lemma interpolate_fluxes_endpoints_witness :
  (∃ out : Series,
      interpolate_fluxes (medium_of western) (medium_of agrarian) 0 "flux" "flux" = Return out
      ∧ (∀ r v, (r, v) ∈ out → (v =? default 0 (lookup_first r western))%float = true))
  ∧ (∃ out : Series,
      interpolate_fluxes (medium_of western) (medium_of agrarian) 1 "flux" "flux" = Return out
      ∧ (∀ r v, (r, v) ∈ out → (v =? default 0 (lookup_first r agrarian))%float = true)).
Proof.
  assert (FA : finite_valued western) by (repeat constructor).
  assert (FB : finite_valued agrarian) by (repeat constructor).
  destruct (interpolate_fluxes_endpoints (medium_of western) (medium_of agrarian)
              "flux" "flux" western agrarian eq_refl eq_refl FA FB)
    as ((out0 & E0 & _ & V0) & (out1 & E1 & _ & V1) & _).
  split.
  - exists out0. split; [exact E0|]. intros r v Hin. apply (V0 r v Hin).
  - exists out1. split; [exact E1|]. intros r v Hin. apply (V1 r v Hin).
Defined.

(** C8. When a profile lists a label more than once, only the first listing
    counts: if [A] is [pre ++ (r, v) :: post] and [pre] does not list [r],
    the output has exactly one value at [r], computed from [v], whatever
    [post] lists for [r]; and the same for [B]. *)
Theorem interpolate_fluxes_first_occurrence (medium_1 medium_2 : DataFrame) (f : float)
    (flux_col_1 flux_col_2 : string) (A B : Series) :
  getitem medium_1 flux_col_1 = Return A →
  getitem medium_2 flux_col_2 = Return B →
  real_valued A → real_valued B →
  (0 <=? f)%float = true → (f <=? 1)%float = true →
  ∃ out : Series,
    interpolate_fluxes medium_1 medium_2 f flux_col_1 flux_col_2 = Return out
    ∧ (∀ r v pre post, A = pre ++ (r, v) :: post → r ∉ s_index pre →
         let w := ((1 - f) * v + f * default 0 (lookup_first r B))%float in
         (r, w) ∈ out ∧ ∀ w', (r, w') ∈ out → w' = w)
    ∧ (∀ r v pre post, B = pre ++ (r, v) :: post → r ∉ s_index pre →
         let w := ((1 - f) * default 0 (lookup_first r A) + f * v)%float in
         (r, w) ∈ out ∧ ∀ w', (r, w') ∈ out → w' = w).
Proof.
  intros HA HB RA RB H0 H1. eexists. split; [|split].
  - apply (interpolate_fluxes_real_valued _ _ _ _ _ A B); assumption.
  - intros r v pre post -> Hpre w. subst w.
    pose proof (lookup_first_app_cons r v pre post Hpre) as L.
    split.
    + apply list_elem_of_fmap. exists r. rewrite L. split; [reflexivity|].
      apply elem_of_union_index. left. unfold s_index.
      rewrite fmap_app, fmap_cons. set_solver.
    + intros w' Hin. apply elem_of_fmap_pair in Hin as [-> _]. rewrite L. reflexivity.
  - intros r v pre post -> Hpre w. subst w.
    pose proof (lookup_first_app_cons r v pre post Hpre) as L.
    split.
    + apply list_elem_of_fmap. exists r. rewrite L. split; [reflexivity|].
      apply elem_of_union_index. right. unfold s_index.
      rewrite fmap_app, fmap_cons. set_solver.
    + intros w' Hin. apply elem_of_fmap_pair in Hin as [-> _]. rewrite L. reflexivity.
Qed.

Lemma interpolate_fluxes_first_occurrence_witness :
  ∃ out : Series,
    interpolate_fluxes (medium_of western) (medium_of agrarian) 0.5 "flux" "flux" = Return out
    ∧ (("EX_glc", ((1 - 0.5) * 10 + 0.5 * 0)%float) ∈ out
       ∧ ∀ w', ("EX_glc", w') ∈ out → w' = ((1 - 0.5) * 10 + 0.5 * 0)%float)
    ∧ (("EX_fib", ((1 - 0.5) * 0 + 0.5 * 2)%float) ∈ out
       ∧ ∀ w', ("EX_fib", w') ∈ out → w' = ((1 - 0.5) * 0 + 0.5 * 2)%float).
Proof.
  assert (RA : real_valued western) by (repeat constructor).
  assert (RB : real_valued agrarian) by (repeat constructor).
  destruct (interpolate_fluxes_first_occurrence (medium_of western) (medium_of agrarian)
              0.5 "flux" "flux" western agrarian eq_refl eq_refl RA RB eq_refl eq_refl)
    as (out & E & FA & FB).
  exists out. split; [exact E|]. split.
  - apply (FA "EX_glc" 10%float [] [("EX_o2", 4%float); ("EX_glc", 99%float)] eq_refl).
    cbn. apply not_elem_of_nil.
  - apply (FB "EX_fib" 2%float [] [("EX_glc", 0%float); ("EX_fib", 8%float)] eq_refl).
    cbn. apply not_elem_of_nil.
Defined.

(** C9. The output lists each label of the union of the two profiles
    exactly once, also when the input profiles repeat labels: its labels are
    pairwise distinct, they are the labels of [A] or of [B], and each of
    these is the label of exactly one entry. *)
Theorem interpolate_fluxes_index_NoDup (medium_1 medium_2 : DataFrame) (f : float)
    (flux_col_1 flux_col_2 : string) (A B : Series) :
  getitem medium_1 flux_col_1 = Return A →
  getitem medium_2 flux_col_2 = Return B →
  (0 <=? f)%float = true → (f <=? 1)%float = true →
  ∃ out : Series,
    interpolate_fluxes medium_1 medium_2 f flux_col_1 flux_col_2 = Return out
    ∧ NoDup (s_index out)
    ∧ (∀ r, r ∈ s_index out ↔ r ∈ s_index A ∨ r ∈ s_index B)
    ∧ (∀ r, r ∈ s_index A ∨ r ∈ s_index B →
         length (filter (fun kv => kv.1 = r) out) = 1).
Proof.
  intros HA HB H0 H1. eexists.
  split; [apply (interpolate_fluxes_unfold _ _ _ _ _ A B); assumption|].
  assert (ND : NoDup (s_index ((fun r => (r, ((1 - f) * flux_or_zero A r
                                              + f * flux_or_zero B r)%float))
                                 <$> elements (list_to_set (s_index A)
                                               ∪ list_to_set (s_index B) : gset string)))).
  { rewrite s_index_fmap_pair. apply NoDup_elements. }
  split; [exact ND|]. split.
  - intros r. rewrite s_index_fmap_pair. apply elem_of_union_index.
  - intros r Hr. apply count_label_NoDup; [exact ND|].
    rewrite s_index_fmap_pair. apply elem_of_union_index. exact Hr.
Qed.

Lemma interpolate_fluxes_index_NoDup_witness :
  ∃ out : Series,
    interpolate_fluxes (medium_of western) (medium_of agrarian) 0.5 "flux" "flux" = Return out
    ∧ NoDup (s_index out)
    ∧ (∀ r, r ∈ s_index out ↔ r ∈ s_index western ∨ r ∈ s_index agrarian)
    ∧ (∀ r, r ∈ s_index western ∨ r ∈ s_index agrarian →
         length (filter (fun kv => kv.1 = r) out) = 1).
Proof.
  apply (interpolate_fluxes_index_NoDup (medium_of western) (medium_of agrarian)
           0.5 "flux" "flux" western agrarian); reflexivity.
Defined.

(** C10, as stated, fails in binary64: at [f = 0.1] the reflected factor
    [1 - f] is 0.9 and [1 - 0.9] is 0.09999999999999998, not 0.1, so for
    [A = {R1: 0}] and [B = {R1: 1}] the two calls return 0.1 and
    0.09999999999999998 at [R1]. *)
Lemma interpolate_fluxes_swap_counterexample :
  interpolate_fluxes (medium_of [("R1", 0%float)]) (medium_of [("R1", 1%float)])
    0.1 "flux" "flux"
  = Return [("R1", 0.1%float)]
  ∧ interpolate_fluxes (medium_of [("R1", 1%float)]) (medium_of [("R1", 0%float)])
      (1 - 0.1) "flux" "flux"
    = Return [("R1", 0.09999999999999998%float)]
  ∧ (0.1 =? 0.09999999999999998)%float = false.
Proof. split; [|split]; vm_compute; reflexivity. Qed.

(** C10, amended.  When both [f] and [1 - f] pass the guard and [1 - (1 - f)]
    is [f] again (as for 0, 0.25, 0.5, 0.75 and 1), swapping the profiles and
    reflecting the factor gives a series with the same labels and, at every
    label, the same value. *)
Theorem interpolate_fluxes_swap (medium_1 medium_2 : DataFrame) (f : float)
    (flux_col_1 flux_col_2 : string) (A B : Series) :
  getitem medium_1 flux_col_1 = Return A →
  getitem medium_2 flux_col_2 = Return B →
  (0 <=? f)%float = true → (f <=? 1)%float = true →
  (0 <=? 1 - f)%float = true → (1 - f <=? 1)%float = true →
  (1 - (1 - f))%float = f →
  ∃ out out' : Series,
    interpolate_fluxes medium_1 medium_2 f flux_col_1 flux_col_2 = Return out
    ∧ interpolate_fluxes medium_2 medium_1 (1 - f) flux_col_2 flux_col_1 = Return out'
    ∧ (∀ r, r ∈ s_index out ↔ r ∈ s_index A ∨ r ∈ s_index B)
    ∧ (∀ r, r ∈ s_index out' ↔ r ∈ s_index A ∨ r ∈ s_index B)
    ∧ (∀ r v v', (r, v) ∈ out → (r, v') ∈ out' → v = v').
Proof.
  intros HA HB H0 H1 H0' H1' Hf. eexists. eexists.
  split; [apply (interpolate_fluxes_unfold medium_1 medium_2 f _ _ A B); assumption|].
  split; [apply (interpolate_fluxes_unfold medium_2 medium_1 (1 - f) _ _ B A); assumption|].
  split; [|split].
  - intros r. rewrite s_index_fmap_pair. apply elem_of_union_index.
  - intros r. rewrite s_index_fmap_pair, elem_of_union_index. tauto.
  - intros r v v' Hin Hin'.
    apply elem_of_fmap_pair in Hin as [-> _]. apply elem_of_fmap_pair in Hin' as [-> _].
    rewrite Hf. apply float_add_comm.
Qed.

Lemma interpolate_fluxes_swap_witness :
  ∃ out out' : Series,
    interpolate_fluxes (medium_of western) (medium_of agrarian) 0.25 "flux" "flux"
    = Return out
    ∧ interpolate_fluxes (medium_of agrarian) (medium_of western) (1 - 0.25) "flux" "flux"
      = Return out'
    ∧ (∀ r, r ∈ s_index out ↔ r ∈ s_index western ∨ r ∈ s_index agrarian)
    ∧ (∀ r, r ∈ s_index out' ↔ r ∈ s_index western ∨ r ∈ s_index agrarian)
    ∧ (∀ r v v', (r, v) ∈ out → (r, v') ∈ out' → v = v').
Proof.
  apply (interpolate_fluxes_swap (medium_of western) (medium_of agrarian) 0.25
           "flux" "flux" western agrarian); reflexivity.
Defined.

(** ** The examples of the specification *)

Example interpolate_fluxes_union_example :
  ∃ out : Series,
    interpolate_fluxes (medium_of [("A", 1%float)]) (medium_of [("B", 2%float)])
      0.5 "flux" "flux" = Return out
    ∧ out ≡ₚ [("A", 0.5%float); ("B", 1%float)].
Proof. eexists. split; [vm_compute; reflexivity | reflexivity]. Qed.

Example interpolate_fluxes_single_reaction_example :
  interpolate_fluxes (medium_of [("R1", 10%float)]) (medium_of [("R1", 0%float)])
    0.5 "flux" "flux"
  = Return [("R1", 5%float)].
Proof. vm_compute. reflexivity. Qed.

(** A NaN entry is a missing value to pandas: [fillna(0)] makes it 0 like the
    entry of a label the profile does not list. *)
Example interpolate_fluxes_nan_example :
  interpolate_fluxes (medium_of [("R1", nan)]) (medium_of [("R1", 4%float)])
    0.5 "flux" "flux"
  = Return [("R1", 2%float)].
Proof. vm_compute. reflexivity. Qed.

(** * [calc_kos] *)

Lemma tax_ids_str_ids (tax : list model_row) : tax_ids (str_ids tax) = tax_ids tax.
Proof. unfold tax_ids, str_ids. rewrite <- list_fmap_compose. reflexivity. Qed.

Lemma value_vars_names (ko : DataFrame) (c : string) :
  c ∈ (value_vars ko).*1 ↔ c ∈ column_names ko ∧ c ≠ "knockout".
Proof.
  unfold value_vars, column_names. rewrite !list_elem_of_fmap. split.
  - intros (col & -> & Hin). apply list_elem_of_filter in Hin as [Hne Hin]. eauto.
  - intros [(col & -> & Hin) Hne]. exists col. split; [reflexivity|].
    apply list_elem_of_filter. auto.
Qed.

Lemma value_vars_no_clash (ko : DataFrame) :
  "knockout" ∉ column_names ko → value_vars ko = df_columns ko.
Proof.
  unfold value_vars, column_names. intros Hn.
  induction (df_columns ko) as [|c cols IH]; [reflexivity|].
  rewrite fmap_cons in Hn. apply not_elem_of_cons in Hn as [Hc Hn].
  rewrite filter_cons_True by congruence. f_equal. apply IH, Hn.
Qed.

Lemma setitem_knockout_one (ko : DataFrame) :
  column_count ko "knockout" ≤ 1 → lf_knockout (setitem_knockout ko) = [df_index ko].
Proof.
  unfold column_count, setitem_knockout. cbn [lf_knockout].
  destruct (filter (fun c => c.1 = "knockout") (df_columns ko)) as [|c [|c' cs]];
    cbn; intros H; [reflexivity | reflexivity | lia].
Qed.

Lemma column_count_absent (df : DataFrame) (col : string) :
  col ∉ column_names df → column_count df col = 0.
Proof.
  unfold column_count, column_names. intros Hn.
  induction (df_columns df) as [|c cols IH]; [reflexivity|].
  rewrite fmap_cons in Hn. apply not_elem_of_cons in Hn as [Hc Hn].
  rewrite filter_cons_False by congruence. apply IH, Hn.
Qed.

(** [melt] accepts the table when no column is named [kept_relative_change]
    and at most one is named [knockout]; its rows are then the cells of the
    value columns. *)
Lemma melt_Return (ko : DataFrame) :
  "kept_relative_change" ∉ column_names ko →
  column_count ko "knockout" ≤ 1 →
  melt (setitem_knockout ko) = Return (wide_cells (df_index ko) (value_vars ko)).
Proof.
  intros Hn Hk. unfold melt. rewrite (setitem_knockout_one _ Hk).
  unfold setitem_knockout. cbn [lf_columns].
  case_decide as Hd; [|reflexivity].
  apply value_vars_names in Hd as [Hd _]. contradiction.
Qed.

Lemma melt_Raise (ko : DataFrame) :
  "kept_relative_change" ∈ column_names ko →
  ∃ e, melt (setitem_knockout ko) = Raise e ∧ exc_class e = "ValueError".
Proof.
  intros Hn. unfold melt, setitem_knockout. cbn [lf_columns lf_knockout].
  case_decide as Hd; [eexists; split; reflexivity|].
  destruct Hd. apply value_vars_names. split; [exact Hn | discriminate].
Qed.

Lemma melt_no_clash (ko : DataFrame) :
  "knockout" ∉ column_names ko → "kept_relative_change" ∉ column_names ko →
  melt (setitem_knockout ko) = Return (cells ko).
Proof.
  intros Hk Hv. rewrite melt_Return; [|exact Hv|rewrite column_count_absent by exact Hk; lia].
  rewrite value_vars_no_clash by exact Hk. reflexivity.
Qed.

Lemma calc_kos_try (M : Micom) (medium_series : Series) (agora_df : ModelDB)
    (indices : list Z) (tax : list model_row) :
  loc agora_df indices = Return tax →
  calc_kos M medium_series agora_df indices
  = (ko ← match try_block M (str_ids tax) medium_series with
          | Return ko => Return ko
          | Raise e => ko ← fallback_frame (tax_ids tax);
                       Return (set_error ko (PyException e))
          end;
     Return (set_SampleID ko (community_label (tax_ids tax)))).
Proof.
  intros Hl. unfold calc_kos. rewrite Hl. cbn [mbind result_bind].
  rewrite tax_ids_str_ids. reflexivity.
Qed.

Lemma calc_kos_success (M : Micom) (medium_series : Series) (agora_df : ModelDB)
    (indices : list Z) (tax : list model_row) (ko : DataFrame)
    (long : list (string * string * float)) :
  loc agora_df indices = Return tax →
  knockout_sweep M (str_ids tax) medium_series = Return ko →
  melt (setitem_knockout ko) = Return long →
  calc_kos M medium_series agora_df indices
  = Return (set_SampleID (set_error (dropna long) (PyString "None"))
              (community_label (tax_ids tax))).
Proof.
  intros Hl Hs Hm. rewrite (calc_kos_try _ _ _ _ _ Hl). unfold try_block.
  rewrite Hs. cbn [mbind result_bind]. rewrite Hm. reflexivity.
Qed.

Lemma calc_kos_failure (M : Micom) (medium_series : Series) (agora_df : ModelDB)
    (indices : list Z) (tax : list model_row) (e : exception) :
  loc agora_df indices = Return tax →
  knockout_sweep M (str_ids tax) medium_series = Raise e →
  calc_kos M medium_series agora_df indices
  = (ko ← fallback_frame (tax_ids tax);
     Return (set_SampleID (set_error ko (PyException e)) (community_label (tax_ids tax)))).
Proof.
  intros Hl Hs. rewrite (calc_kos_try _ _ _ _ _ Hl). unfold try_block.
  rewrite Hs. cbn [mbind result_bind].
  destruct (fallback_frame (tax_ids tax)); reflexivity.
Qed.

(** An exception of the melt is caught like one of micom. *)
Lemma calc_kos_melt_failure (M : Micom) (medium_series : Series) (agora_df : ModelDB)
    (indices : list Z) (tax : list model_row) (ko : DataFrame) (e : exception) :
  loc agora_df indices = Return tax →
  knockout_sweep M (str_ids tax) medium_series = Return ko →
  melt (setitem_knockout ko) = Raise e →
  calc_kos M medium_series agora_df indices
  = (ko ← fallback_frame (tax_ids tax);
     Return (set_SampleID (set_error ko (PyException e)) (community_label (tax_ids tax)))).
Proof.
  intros Hl Hs Hm. rewrite (calc_kos_try _ _ _ _ _ Hl). unfold try_block.
  rewrite Hs. cbn [mbind result_bind]. rewrite Hm. cbn [mbind result_bind].
  destruct (fallback_frame (tax_ids tax)); reflexivity.
Qed.

(** X6. When exactly two rows are selected and the sweep raises, whichever
    of the three micom calls it is, the handler returns two rows: the two
    members in listing order and reversed, NaN as the change, the caught
    exception as the error, and the community label. *)
Lemma calc_kos_failure_pair (M : Micom) (medium_series : Series) (agora_df : ModelDB)
    (indices : list Z) (t1 t2 : model_row) (e : exception) :
  loc agora_df indices = Return [t1; t2] →
  knockout_sweep M (str_ids [t1; t2]) medium_series = Raise e →
  let id1 := py_str (row_id t1) in
  let id2 := py_str (row_id t2) in
  calc_kos M medium_series agora_df indices
  = Return [ {| knockout := id1; kept := id2; kept_relative_change := nan;
                error := PyException e; SampleID := community_label [id1; id2] |};
             {| knockout := id2; kept := id1; kept_relative_change := nan;
                error := PyException e; SampleID := community_label [id1; id2] |} ].
Proof.
  intros Hl Hs id1 id2.
  rewrite (calc_kos_failure _ _ _ _ _ _ Hl Hs). reflexivity.
Qed.

(** X7. When the sweep raises and the number of selected rows is not two
    (none, one, three or more), the handler's frame cannot be built and
    [calc_kos] raises pandas's ValueError: no fallback rows are returned. *)
Lemma calc_kos_failure_raises (M : Micom) (medium_series : Series) (agora_df : ModelDB)
    (indices : list Z) (tax : list model_row) (e : exception) :
  loc agora_df indices = Return tax →
  knockout_sweep M (str_ids tax) medium_series = Raise e →
  length tax ≠ 2 →
  calc_kos M medium_series agora_df indices
  = Raise (ValueError "All arrays must be of the same length").
Proof.
  intros Hl Hs Hn. rewrite (calc_kos_failure _ _ _ _ _ _ Hl Hs).
  unfold fallback_frame, tax_ids. rewrite length_fmap.
  case_decide; [contradiction | reflexivity].
Qed.

Lemma SampleID_set_SampleID (ko : list (string * string * float * pyobj)) (label : string)
    (r : ko_row) :
  r ∈ set_SampleID ko label → SampleID r = label.
Proof.
  unfold set_SampleID. intros H. apply list_elem_of_fmap in H as (x & -> & _). reflexivity.
Qed.

Lemma calc_kos_Return_label (M : Micom) (medium_series : Series) (agora_df : ModelDB)
    (indices : list Z) (rows : list ko_row) :
  calc_kos M medium_series agora_df indices = Return rows →
  ∃ tax, loc agora_df indices = Return tax
         ∧ ∀ r, r ∈ rows → SampleID r = community_label (tax_ids tax).
Proof.
  intros H. destruct (loc agora_df indices) as [tax|e0] eqn:Hl.
  2:{ unfold calc_kos in H. rewrite Hl in H. discriminate. }
  exists tax. split; [reflexivity|].
  rewrite (calc_kos_try _ _ _ _ _ Hl) in H.
  destruct (try_block M (str_ids tax) medium_series) as [ko|e].
  - injection H as <-. intros r. apply SampleID_set_SampleID.
  - destruct (fallback_frame (tax_ids tax)) as [fr|e1]; [|discriminate].
    injection H as <-. intros r. apply SampleID_set_SampleID.
Qed.









(** C2 at a community of three members whose sweep fails: the handler's
    frame has columns of lengths 3, 3 and 2, so [calc_kos] raises pandas's
    ValueError instead of returning two rows. *)
Theorem calc_kos_failure_three_members :
  loc agora_sample [1; 10; 5]%Z
  = Return [ {| row_id := PyInt 7; row_file := "seven.json" |};
             {| row_id := PyInt 3; row_file := "three.json" |};
             {| row_id := PyStr "11"; row_file := "eleven.json" |} ]
  ∧ calc_kos (micom_raising infeasible) [("R1", 5%float)] agora_sample [1; 10; 5]%Z
    = Raise (ValueError "All arrays must be of the same length").
Proof. split; reflexivity. Qed.

(** ** Counting the cells of the wide table *)







Lemma length_set_SampleID (ko : list (string * string * float * pyobj)) (label : string) :
  length (set_SampleID ko label) = length ko.
Proof. apply length_fmap. Qed.

Lemma length_set_error (ko : list (string * string * float)) (e : pyobj) :
  length (set_error ko e) = length ko.
Proof. apply length_fmap. Qed.

Lemma elem_of_long_table (ko : list (string * string * float)) (e : pyobj) (label : string)
    (r : ko_row) :
  r ∈ set_SampleID (set_error ko e) label
  ↔ (knockout r, kept r, kept_relative_change r) ∈ ko ∧ error r = e ∧ SampleID r = label.
Proof.
  unfold set_SampleID, set_error. rewrite <- list_fmap_compose. split.
  - intros H. apply list_elem_of_fmap in H as ([[k c] v] & -> & Hin). cbn. auto.
  - intros (Hin & He & Hl). apply list_elem_of_fmap.
    exists (knockout r, kept r, kept_relative_change r). split; [|exact Hin].
    destruct r; cbn in *. subst. reflexivity.
Qed.

Lemma sweep_table_no_clash (ids : list string) (ko : DataFrame) (name : string) :
  sweep_table ids ko → name ∉ ids → name ∉ column_names ko.
Proof.
  intros (_ & _ & Hc & _ & _) Hn. unfold column_names. rewrite Hc. exact Hn.
Qed.



Lemma sweep_table_ko_sample3 : sweep_table ["7"; "3"; "11"] ko_sample3.
Proof.
  assert (ND : ∀ a b c : string, a ≠ b → a ≠ c → b ≠ c → NoDup [a; b; c]).
  { intros a b c Hab Hac Hbc. repeat constructor; set_solver. }
  assert (P : ["11"; "3"; "7"] ≡ₚ ["7"; "3"; "11"]).
  { apply NoDup_Permutation; [apply ND; discriminate .. |]. intros x. set_solver. }
  repeat split.
  - apply ND; discriminate.
  - exact P.
  - exact P.
  - repeat constructor.
  - repeat constructor; cbn; intros; try reflexivity; discriminate.
Defined.


(** ** The examples of the specification *)

Example calc_kos_success_example :
  calc_kos (micom_returning ko_sample) [("R1", 5%float)] agora_sample [1; 10]%Z
  = Return [ {| knockout := "7"; kept := "3"; kept_relative_change := (-0.2)%float;
                error := PyString "None"; SampleID := "3_7" |};
             {| knockout := "3"; kept := "7"; kept_relative_change := (-0.1)%float;
                error := PyString "None"; SampleID := "3_7" |} ].
Proof. vm_compute. reflexivity. Qed.

Example calc_kos_infeasible_example :
  calc_kos (micom_raising infeasible) [("R1", 5%float)] agora_sample [1; 10]%Z
  = Return [ {| knockout := "7"; kept := "3"; kept_relative_change := nan;
                error := PyException infeasible; SampleID := "3_7" |};
             {| knockout := "3"; kept := "7"; kept_relative_change := nan;
                error := PyException infeasible; SampleID := "3_7" |} ].
Proof. vm_compute. reflexivity. Qed.

(** A member named [kept_relative_change]: the sweep returns, the melt
    raises inside the [try], and the handler answers as for a failed sweep,
    with two fallback rows for two members and with its own ValueError for
    three. *)
Example calc_kos_value_name_clash :
  (∃ e, calc_kos (micom_returning ko_value_name) [("R1", 5%float)] agora_value_name [0; 1]%Z
        = Return [ {| knockout := "kept_relative_change"; kept := "b";
                      kept_relative_change := nan;
                      error := PyException e; SampleID := "b_kept_relative_change" |};
                   {| knockout := "b"; kept := "kept_relative_change";
                      kept_relative_change := nan;
                      error := PyException e; SampleID := "b_kept_relative_change" |} ]
        ∧ exc_class e = "ValueError")
  ∧ calc_kos (micom_returning ko_value_name) [("R1", 5%float)] agora_value_name [0; 1; 2]%Z
    = Raise (ValueError "All arrays must be of the same length").
Proof. split; [eexists; split|]; vm_compute; reflexivity. Qed.

(** * Further properties of [interpolate_fluxes] *)

(** The three outcomes of [df[col]], by the number of columns of that name. *)
Lemma getitem_cases (df : DataFrame) (col : string) :
  (column_count df col = 0 ∧ getitem df col = Raise (KeyError col))
  ∨ (column_count df col = 1 ∧ ∃ s : Series, getitem df col = Return s)
  ∨ (2 ≤ column_count df col ∧ ∃ f : DataFrame, getitem df col = Return (PdFrame f)).
Proof.
  unfold getitem, column_count.
  destruct (filter (fun c => c.1 = col) (df_columns df)) as [|c [|c' cs]].
  - left. auto.
  - right; left. eauto.
  - right; right. split; [cbn; lia | eauto].
Qed.

Lemma getitem_Return_iff (df : DataFrame) (col : string) :
  (∃ s : Series, getitem df col = Return s) ↔ column_count df col = 1.
Proof.
  destruct (getitem_cases df col) as [[Hc E]|[[Hc [s E]]|[Hc [f E]]]]; rewrite E, ?Hc.
  - split; [intros [s Hs]; discriminate | discriminate].
  - split; eauto.
  - split; [intros [s Hs]; discriminate | lia].
Qed.

(** A frame in place of the first series: the assignment of line 99 raises. *)
Lemma interpolate_fluxes_frame_1 (medium_1 medium_2 : DataFrame) (n : float)
    (flux_col_1 flux_col_2 : string) (f : DataFrame) (obj : pdobject) :
  in_unit_interval n = true →
  getitem medium_1 flux_col_1 = Return (PdFrame f) →
  getitem medium_2 flux_col_2 = Return obj →
  ∃ e, interpolate_fluxes medium_1 medium_2 n flux_col_1 flux_col_2 = Raise e
       ∧ exc_class e = "ValueError".
Proof.
  intros Hn HA HB. unfold interpolate_fluxes. fold (in_unit_interval n).
  rewrite Hn, HA, HB. cbn [negb mbind result_bind pd_mask pd_index reindexed_column].
  case_bool_decide; eexists; split; reflexivity.
Qed.

(** A frame in place of the second series: the assignment of line 100 raises. *)
Lemma interpolate_fluxes_frame_2 (medium_1 medium_2 : DataFrame) (n : float)
    (flux_col_1 flux_col_2 : string) (A : Series) (f : DataFrame) :
  in_unit_interval n = true →
  getitem medium_1 flux_col_1 = Return A →
  getitem medium_2 flux_col_2 = Return (PdFrame f) →
  ∃ e, interpolate_fluxes medium_1 medium_2 n flux_col_1 flux_col_2 = Raise e
       ∧ exc_class e = "ValueError".
Proof.
  intros Hn HA HB. unfold interpolate_fluxes. fold (in_unit_interval n).
  rewrite Hn, HA, HB. cbn [negb mbind result_bind pd_mask pd_index reindexed_column].
  rewrite reindex_drop_duplicates. cbn [mbind result_bind].
  case_bool_decide; eexists; split; reflexivity.
Qed.

Lemma interpolate_fluxes_in_range (medium_1 medium_2 : DataFrame) (n : float)
    (flux_col_1 flux_col_2 : string) (A B : Series) :
  getitem medium_1 flux_col_1 = Return A →
  getitem medium_2 flux_col_2 = Return B →
  in_unit_interval n = true →
  interpolate_fluxes medium_1 medium_2 n flux_col_1 flux_col_2
  = Return ((fun r => (r, ((1 - n) * flux_or_zero A r + n * flux_or_zero B r)%float))
              <$> elements (list_to_set (s_index A) ∪ list_to_set (s_index B) : gset string)).
Proof.
  intros HA HB Hn. apply andb_prop in Hn as [H0 H1].
  apply (interpolate_fluxes_unfold _ _ _ _ _ A B); assumption.
Qed.

Lemma interpolate_fluxes_Return_in_range (medium_1 medium_2 : DataFrame) (n : float)
    (flux_col_1 flux_col_2 : string) (out : Series) :
  interpolate_fluxes medium_1 medium_2 n flux_col_1 flux_col_2 = Return out →
  in_unit_interval n = true.
Proof.
  unfold interpolate_fluxes. fold (in_unit_interval n).
  destruct (in_unit_interval n); [reflexivity | discriminate].
Qed.

(** X1. [interpolate_fluxes] returns a series exactly when the factor passes
    the guard and each medium has exactly one column of the name of its flux
    column.  A medium without the column, or with several columns of that
    name (for which pandas yields a frame that line 99 or 100 cannot set as
    one column), makes the call raise; with one column each, nothing after
    the two reads can fail (reindexing a series that had its repeated labels
    removed is always accepted). *)
Theorem interpolate_fluxes_returns_iff (medium_1 medium_2 : DataFrame) (n : float)
    (flux_col_1 flux_col_2 : string) :
  (∃ out, interpolate_fluxes medium_1 medium_2 n flux_col_1 flux_col_2 = Return out)
  ↔ in_unit_interval n = true
    ∧ column_count medium_1 flux_col_1 = 1
    ∧ column_count medium_2 flux_col_2 = 1.
Proof.
  split.
  - intros [out H].
    pose proof (interpolate_fluxes_Return_in_range _ _ _ _ _ _ H) as Hn.
    split; [exact Hn|].
    destruct (getitem_cases medium_1 flux_col_1) as [[Hc1 E1]|[[Hc1 [A E1]]|[Hc1 [f1 E1]]]].
    + unfold interpolate_fluxes in H. fold (in_unit_interval n) in H.
      rewrite Hn, E1 in H. discriminate.
    + split; [exact Hc1|].
      destruct (getitem_cases medium_2 flux_col_2) as [[Hc2 E2]|[[Hc2 [B E2]]|[Hc2 [f2 E2]]]].
      * unfold interpolate_fluxes in H. fold (in_unit_interval n) in H.
        rewrite Hn, E1, E2 in H. discriminate.
      * exact Hc2.
      * destruct (interpolate_fluxes_frame_2 _ _ _ _ _ _ _ Hn E1 E2) as (e & He & _).
        congruence.
    + exfalso.
      destruct (getitem medium_2 flux_col_2) as [obj|e2] eqn:E2.
      * destruct (interpolate_fluxes_frame_1 _ _ _ _ _ _ _ Hn E1 E2) as (e & He & _).
        congruence.
      * unfold interpolate_fluxes in H. fold (in_unit_interval n) in H.
        rewrite Hn, E1, E2 in H. discriminate.
  - intros (Hn & H1 & H2).
    apply getitem_Return_iff in H1 as [A HA]. apply getitem_Return_iff in H2 as [B HB].
    eexists. apply (interpolate_fluxes_in_range _ _ _ _ _ A B); assumption.
Qed.

(** X2. Every exception [interpolate_fluxes] raises is one of these, tried
    in this order: the guard's ValueError when the factor is not in [0, 1];
    a KeyError for the first medium's flux column when no column has that
    name; a KeyError for the second medium's; pandas's ValueError at line 99
    when several columns of the first medium have the name; the same at
    line 100 for the second medium.  A NaN factor fails the guard. *)
Theorem interpolate_fluxes_raises (medium_1 medium_2 : DataFrame) (n : float)
    (flux_col_1 flux_col_2 : string) :
  (∀ e, interpolate_fluxes medium_1 medium_2 n flux_col_1 flux_col_2 = Raise e →
     (in_unit_interval n = false ∧ e = ValueError "n must be between 0 and 1")
     ∨ (in_unit_interval n = true ∧ column_count medium_1 flux_col_1 = 0
        ∧ e = KeyError flux_col_1)
     ∨ (in_unit_interval n = true ∧ 1 ≤ column_count medium_1 flux_col_1
        ∧ column_count medium_2 flux_col_2 = 0 ∧ e = KeyError flux_col_2)
     ∨ (in_unit_interval n = true ∧ 2 ≤ column_count medium_1 flux_col_1
        ∧ 1 ≤ column_count medium_2 flux_col_2 ∧ exc_class e = "ValueError")
     ∨ (in_unit_interval n = true ∧ column_count medium_1 flux_col_1 = 1
        ∧ 2 ≤ column_count medium_2 flux_col_2 ∧ exc_class e = "ValueError"))
  ∧ (in_unit_interval n = false →
     interpolate_fluxes medium_1 medium_2 n flux_col_1 flux_col_2
     = Raise (ValueError "n must be between 0 and 1"))
  ∧ (is_nan n = true → in_unit_interval n = false).
Proof.
  split; [|split].
  - intros e H.
    destruct (in_unit_interval n) eqn:Hn.
    2:{ left. split; [reflexivity|]. unfold interpolate_fluxes in H.
        fold (in_unit_interval n) in H. rewrite Hn in H. cbn [negb] in H. congruence. }
    right.
    destruct (getitem_cases medium_1 flux_col_1) as [[Hc1 E1]|[[Hc1 [A E1]]|[Hc1 [f1 E1]]]].
    + left. unfold interpolate_fluxes in H. fold (in_unit_interval n) in H.
      rewrite Hn, E1 in H. cbn [negb mbind result_bind] in H. injection H as <-. auto.
    + right.
      destruct (getitem_cases medium_2 flux_col_2) as [[Hc2 E2]|[[Hc2 [B E2]]|[Hc2 [f2 E2]]]].
      * left. unfold interpolate_fluxes in H. fold (in_unit_interval n) in H.
        rewrite Hn, E1, E2 in H. cbn [negb mbind result_bind] in H. injection H as <-.
        repeat split; [lia | exact Hc2].
      * exfalso.
        rewrite (interpolate_fluxes_in_range _ _ _ _ _ A B E1 E2 Hn) in H. discriminate.
      * right; right. destruct (interpolate_fluxes_frame_2 _ _ _ _ _ _ _ Hn E1 E2)
          as (e' & He' & Hc). rewrite He' in H. injection H as <-. auto.
    + right.
      destruct (getitem_cases medium_2 flux_col_2) as [[Hc2 E2]|[[Hc2 [B E2]]|[Hc2 [f2 E2]]]].
      * left. unfold interpolate_fluxes in H. fold (in_unit_interval n) in H.
        rewrite Hn, E1, E2 in H. cbn [negb mbind result_bind] in H. injection H as <-.
        repeat split; [lia | exact Hc2].
      * right; left. destruct (interpolate_fluxes_frame_1 _ _ _ _ _ _ _ Hn E1 E2)
          as (e' & He' & Hc). rewrite He' in H. injection H as <-.
        repeat split; [exact Hc1 | lia | exact Hc].
      * right; left. destruct (interpolate_fluxes_frame_1 _ _ _ _ _ _ _ Hn E1 E2)
          as (e' & He' & Hc). rewrite He' in H. injection H as <-.
        repeat split; [exact Hc1 | lia | exact Hc].
  - intros Hn. unfold interpolate_fluxes. fold (in_unit_interval n). rewrite Hn. reflexivity.
  - intros Hn. unfold in_unit_interval. rewrite float_leb_nan_r by exact Hn. reflexivity.
Qed.

(** A diet with two columns named [flux]: the reads succeed and line 99
    raises; when the other diet has no such column, its KeyError comes
    first. *)
Example interpolate_fluxes_two_flux_columns :
  interpolate_fluxes two_flux_columns (medium_of agrarian) 0.5 "flux" "flux"
  = Raise (ValueError
             "Cannot set a DataFrame with multiple columns to the single column medium_1_flux")
  ∧ interpolate_fluxes (medium_of western) two_flux_columns 0.5 "flux" "flux"
    = Raise (ValueError
               "Cannot set a DataFrame with multiple columns to the single column medium_2_flux")
  ∧ interpolate_fluxes two_flux_columns (medium_of agrarian) 0.5 "flux" "rate"
    = Raise (KeyError "rate").
Proof. split; [|split]; vm_compute; reflexivity. Qed.

(** X3. A NaN is a missing value: when the first listing of a label in the
    first profile holds NaN, that profile contributes 0 at the label, also
    when a later listing of the same label holds a number. *)
Theorem interpolate_fluxes_nan_first (medium_1 medium_2 : DataFrame) (n : float)
    (flux_col_1 flux_col_2 : string) (A B pre post : Series) (r : string) (v : float) :
  getitem medium_1 flux_col_1 = Return A →
  getitem medium_2 flux_col_2 = Return B →
  in_unit_interval n = true →
  real_valued B →
  A = pre ++ (r, v) :: post → r ∉ s_index pre → is_nan v = true →
  ∃ out : Series,
    interpolate_fluxes medium_1 medium_2 n flux_col_1 flux_col_2 = Return out
    ∧ r ∈ s_index out
    ∧ ∀ w, (r, w) ∈ out → w = ((1 - n) * 0 + n * default 0 (lookup_first r B))%float.
Proof.
  intros HA HB Hn RB -> Hpre Hv.
  assert (Z : flux_or_zero (pre ++ (r, v) :: post) r = 0%float).
  { unfold flux_or_zero. rewrite lookup_first_app_cons by assumption.
    cbn [default from_option]. unfold id. rewrite Hv. reflexivity. }
  eexists. split; [apply (interpolate_fluxes_in_range _ _ _ _ _ _ B HA HB Hn)|].
  split.
  - rewrite s_index_fmap_pair. apply elem_of_union_index. left.
    unfold s_index. rewrite fmap_app, fmap_cons. set_solver.
  - intros w Hin. apply elem_of_fmap_pair in Hin as [-> _].
    rewrite Z, flux_or_zero_real_valued by assumption. reflexivity.
Qed.

Lemma interpolate_fluxes_nan_first_witness :
  ∃ out : Series,
    interpolate_fluxes (medium_of [("R1", nan); ("R1", 5%float)]) (medium_of [("R1", 4%float)])
      0.5 "flux" "flux" = Return out
    ∧ "R1" ∈ s_index out
    ∧ ∀ w, ("R1", w) ∈ out → w = ((1 - 0.5) * 0 + 0.5 * 4)%float.
Proof.
  apply (interpolate_fluxes_nan_first
           (medium_of [("R1", nan); ("R1", 5%float)]) (medium_of [("R1", 4%float)])
           0.5 "flux" "flux" [("R1", nan); ("R1", 5%float)] [("R1", 4%float)]
           [] [("R1", 5%float)] "R1" nan).
  - reflexivity.
  - reflexivity.
  - reflexivity.
  - repeat constructor.
  - reflexivity.
  - cbn. apply not_elem_of_nil.
  - reflexivity.
Defined.

(** X4. The output has one entry for each distinct label of the two
    profiles: its labels are those of the two listings with repetitions
    removed, in some order; so it has at most as many entries as the two
    profiles together, and none exactly when both profiles are empty. *)
Theorem interpolate_fluxes_labels (medium_1 medium_2 : DataFrame) (n : float)
    (flux_col_1 flux_col_2 : string) (A B out : Series) :
  getitem medium_1 flux_col_1 = Return A →
  getitem medium_2 flux_col_2 = Return B →
  interpolate_fluxes medium_1 medium_2 n flux_col_1 flux_col_2 = Return out →
  s_index out ≡ₚ remove_dups (s_index A ++ s_index B)
  ∧ length out ≤ length A + length B
  ∧ (out = [] ↔ A = [] ∧ B = []).
Proof.
  intros HA HB H.
  pose proof (interpolate_fluxes_Return_in_range _ _ _ _ _ _ H) as Hn.
  rewrite (interpolate_fluxes_in_range _ _ _ _ _ A B HA HB Hn) in H. injection H as <-.
  assert (P : s_index ((fun r => (r, ((1 - n) * flux_or_zero A r + n * flux_or_zero B r)%float))
                         <$> elements (list_to_set (s_index A) ∪ list_to_set (s_index B)
                                       : gset string))
              ≡ₚ remove_dups (s_index A ++ s_index B)).
  { rewrite s_index_fmap_pair. apply NoDup_Permutation.
    - apply NoDup_elements.
    - apply NoDup_remove_dups.
    - intros x. rewrite elem_of_union_index, elem_of_remove_dups, elem_of_app. reflexivity. }
  split; [exact P|]. split.
  - apply Permutation_length in P. unfold s_index in P at 1. rewrite length_fmap in P.
    rewrite P. transitivity (length (s_index A ++ s_index B)).
    + apply submseteq_length, NoDup_submseteq; [apply NoDup_remove_dups|].
      intros x. apply elem_of_remove_dups.
    + unfold s_index. rewrite length_app, !length_fmap. reflexivity.
  - split.
    + intros E. rewrite E in P. cbn in P. symmetry in P. apply Permutation_nil_r in P.
      assert (Hnil : s_index A ++ s_index B = []).
      { destruct (s_index A ++ s_index B) as [|x l] eqn:El; [reflexivity|].
        assert (Hx : x ∈ remove_dups (x :: l)) by (apply elem_of_remove_dups; left).
        rewrite P in Hx. inversion Hx. }
      apply app_eq_nil in Hnil as [Ha Hb]. unfold s_index in Ha, Hb.
      apply fmap_nil_inv in Ha. apply fmap_nil_inv in Hb. auto.
    + intros [-> ->]. reflexivity.
Qed.

Lemma interpolate_fluxes_labels_witness :
  ∃ out : Series,
    interpolate_fluxes (medium_of western) (medium_of agrarian) 0.5 "flux" "flux" = Return out
    ∧ s_index out ≡ₚ remove_dups (s_index western ++ s_index agrarian)
    ∧ length out ≤ length western + length agrarian
    ∧ (out = [] ↔ western = [] ∧ agrarian = []).
Proof.
  destruct (interpolate_fluxes (medium_of western) (medium_of agrarian) 0.5 "flux" "flux")
    as [out|e] eqn:E; [|vm_compute in E; discriminate E].
  exists out. split; [reflexivity|].
  apply (interpolate_fluxes_labels (medium_of western) (medium_of agrarian) 0.5
           "flux" "flux" western agrarian out eq_refl eq_refl E).
Defined.

(** * Further properties of [calc_kos] *)

Lemma loc_Raise (agora_df : ModelDB) (indices : list Z) :
  Exists (fun i => filter (fun r => r.1 = i) agora_df = []) indices →
  ∃ e, loc agora_df indices = Raise e ∧ exc_class e = "KeyError".
Proof.
  induction indices as [|i rest IH]; intros Hex; [inversion Hex|].
  cbn [loc]. destruct (filter (fun r => r.1 = i) agora_df) as [|h hits] eqn:Hf.
  - eexists. split; reflexivity.
  - apply Exists_cons in Hex as [Hi|Hr]; [congruence|].
    destruct (IH Hr) as (e & He & Hc). rewrite He. eauto.
Qed.

(** X5. An index that labels no row of the database makes [calc_kos] raise
    a KeyError: the rows are selected before the [try] block, so this error
    is not turned into fallback rows, and micom and the medium play no part
    in it. *)
Theorem calc_kos_missing_index (agora_df : ModelDB) (indices : list Z) (i : Z) :
  i ∈ indices →
  (∀ r, r ∈ agora_df → r.1 ≠ i) →
  ∃ e, exc_class e = "KeyError"
       ∧ ∀ (M : Micom) (medium_series : Series),
           calc_kos M medium_series agora_df indices = Raise e.
Proof.
  intros Hi Hmiss.
  destruct (loc_Raise agora_df indices) as (e & He & Hc).
  { apply Exists_exists. exists i. split; [exact Hi|].
    destruct (filter (fun r => r.1 = i) agora_df) as [|h hits] eqn:Hf; [reflexivity|].
    assert (Hh : h ∈ filter (fun r : Z * model_row => r.1 = i) agora_df)
      by (rewrite Hf; left).
    apply list_elem_of_filter in Hh as [Hh1 Hh2]. destruct (Hmiss h Hh2 Hh1). }
  exists e. split; [exact Hc|]. intros M medium_series.
  unfold calc_kos. rewrite He. reflexivity.
Qed.

Lemma calc_kos_missing_index_witness :
  ∃ e, exc_class e = "KeyError"
       ∧ ∀ (M : Micom) (medium_series : Series),
           calc_kos M medium_series agora_sample [1; 2]%Z = Raise e.
Proof.
  apply (calc_kos_missing_index agora_sample [1; 2]%Z 2%Z).
  - set_solver.
  - intros r Hr. unfold agora_sample in Hr.
    repeat (apply elem_of_cons in Hr as [->|Hr]; [discriminate|]). inversion Hr.
Defined.

(** Two members, a sweep that raises: the two fallback rows. *)
Lemma calc_kos_failure_pair_witness :
  calc_kos (micom_raising infeasible) [("R1", 5%float)] agora_sample [10; 5]%Z
  = Return [ {| knockout := "3"; kept := "11"; kept_relative_change := nan;
                error := PyException infeasible; SampleID := community_label ["3"; "11"] |};
             {| knockout := "11"; kept := "3"; kept_relative_change := nan;
                error := PyException infeasible; SampleID := community_label ["3"; "11"] |} ].
Proof.
  apply (calc_kos_failure_pair (micom_raising infeasible) [("R1", 5%float)] agora_sample
           [10; 5]%Z {| row_id := PyInt 3; row_file := "three.json" |}
           {| row_id := PyStr "11"; row_file := "eleven.json" |} infeasible).
  - reflexivity.
  - reflexivity.
Defined.

(** One member, a sweep that raises: the handler raises. *)
Lemma calc_kos_failure_raises_witness :
  calc_kos (micom_raising infeasible) [("R1", 5%float)] agora_sample [0]%Z
  = Raise (ValueError "All arrays must be of the same length").
Proof.
  apply (calc_kos_failure_raises (micom_raising infeasible) [("R1", 5%float)] agora_sample
           [0]%Z [ {| row_id := PyStr "x"; row_file := "x.json" |} ] infeasible).
  - reflexivity.
  - reflexivity.
  - vm_compute. lia.
Defined.

Lemma elem_of_wide_cells (labels : list string) (columns : list (string * list float))
    (k c : string) (v : float) :
  (k, c, v) ∈ wide_cells labels columns → k ∈ labels ∧ c ∈ columns.*1.
Proof.
  unfold wide_cells. intros H.
  apply list_elem_of_bind in H as (col & Hin & Hcol).
  apply list_elem_of_fmap in Hin as ([k' v'] & [= -> -> ->] & Hz).
  split.
  - apply elem_of_zip_l in Hz. exact Hz.
  - apply list_elem_of_fmap. exists col. auto.
Qed.

Lemma wide_cells_length_le (labels : list string) (columns : list (string * list float)) :
  length (wide_cells labels columns) ≤ length labels * length columns.
Proof.
  unfold wide_cells. induction columns as [|c cols IH]; [cbn; lia|].
  rewrite bind_cons, length_app, length_fmap, length_zip. cbn [length]. lia.
Qed.

(** The cells of the value columns are the cells outside a column named
    [knockout]. *)
Lemma wide_cells_value_vars (ko : DataFrame) :
  wide_cells (df_index ko) (value_vars ko)
  = filter (fun cell => cell.1.2 ≠ "knockout") (cells ko).
Proof.
  unfold cells, value_vars, wide_cells.
  induction (df_columns ko) as [|c cols IH]; [reflexivity|].
  rewrite bind_cons, filter_app, <- IH.
  destruct (decide (c.1 = "knockout")) as [E|E].
  - rewrite filter_cons_False by (intros Hne; exact (Hne E)).
    assert (Hnil : filter (fun cell : string * string * float => cell.1.2 ≠ "knockout")
                     ((fun kv : string * float => (kv.1, c.1, kv.2)) <$> zip (df_index ko) c.2)
                   = []).
    { induction (zip (df_index ko) c.2) as [|kv l IHl]; [reflexivity|].
      rewrite fmap_cons, filter_cons_False by (cbn; intros Hne; exact (Hne E)). exact IHl. }
    rewrite Hnil. reflexivity.
  - rewrite filter_cons_True by exact E. rewrite bind_cons. f_equal.
    induction (zip (df_index ko) c.2) as [|kv l IHl]; [reflexivity|].
    rewrite fmap_cons, filter_cons_True by (cbn; exact E). f_equal. exact IHl.
Qed.

(** X8. Whatever table the sweep returns, also one that breaks micom's
    contract, as long as none of its columns is named
    [kept_relative_change] and at most one is named [knockout] (tables that
    the melt refuses), [calc_kos] returns rows whose knockout is a label of the table's index, whose kept member is one
    of its columns, never a column named [knockout], and whose value is not
    NaN; there are at most as many rows as cells, and no row at all exactly
    when every cell outside a column named [knockout] is NaN, so a
    successful call can return nothing. *)
Theorem calc_kos_success_any_table (M : Micom) (medium_series : Series) (agora_df : ModelDB)
    (indices : list Z) (tax : list model_row) (ko : DataFrame) :
  loc agora_df indices = Return tax →
  knockout_sweep M (str_ids tax) medium_series = Return ko →
  "kept_relative_change" ∉ column_names ko →
  column_count ko "knockout" ≤ 1 →
  ∃ rows : list ko_row,
    calc_kos M medium_series agora_df indices = Return rows
    ∧ (∀ r, r ∈ rows →
         knockout r ∈ df_index ko ∧ kept r ∈ column_names ko ∧ kept r ≠ "knockout"
         ∧ is_nan (kept_relative_change r) = false)
    ∧ length rows ≤ length (df_index ko) * length (df_columns ko)
    ∧ (rows = [] ↔ Forall (fun cell => cell.1.2 ≠ "knockout" → is_nan cell.2 = true)
                     (cells ko)).
Proof.
  intros Hl Hs Hv Hk1. eexists.
  split; [exact (calc_kos_success _ _ _ _ _ _ _ Hl Hs (melt_Return _ Hv Hk1))|].
  split; [|split].
  - intros r Hr. apply elem_of_long_table in Hr as (Hin & _ & _).
    unfold dropna in Hin. apply list_elem_of_filter in Hin as [Hn Hin].
    apply elem_of_wide_cells in Hin as [Hk Hc].
    apply value_vars_names in Hc as [Hc Hne]. auto.
  - rewrite length_set_SampleID, length_set_error. unfold dropna.
    etransitivity; [apply length_filter|].
    etransitivity; [apply wide_cells_length_le|].
    apply Nat.mul_le_mono_l. unfold value_vars. apply length_filter.
  - unfold set_SampleID, set_error, dropna. rewrite wide_cells_value_vars. split.
    + intros E. apply fmap_nil_inv in E. apply fmap_nil_inv in E.
      apply Forall_forall. intros cell Hcell Hne.
      destruct (is_nan cell.2) eqn:Hn; [reflexivity|]. exfalso.
      assert (Hf : cell ∈ filter (fun r : string * string * float => is_nan r.2 = false)
                          (filter (fun cell : string * string * float => cell.1.2 ≠ "knockout")
                             (cells ko)))
        by (apply list_elem_of_filter; split; [exact Hn|]; apply list_elem_of_filter; auto).
      rewrite E in Hf. inversion Hf.
    + intros Hall.
      assert (E : filter (fun r : string * string * float => is_nan r.2 = false)
                    (filter (fun cell : string * string * float => cell.1.2 ≠ "knockout")
                       (cells ko))
                  = []).
      { induction Hall as [|cell rest Hc _ IH]; [reflexivity|].
        destruct (decide (cell.1.2 = "knockout")) as [Ek|Ek].
        - rewrite (filter_cons_False (fun cell : string * string * float =>
                                        cell.1.2 ≠ "knockout"))
            by (intros Hne; exact (Hne Ek)).
          exact IH.
        - rewrite (filter_cons_True (fun cell : string * string * float =>
                                       cell.1.2 ≠ "knockout")) by exact Ek.
          rewrite filter_cons_False by (rewrite (Hc Ek); discriminate). exact IH. }
      rewrite E. reflexivity.
Qed.

Lemma calc_kos_success_any_table_witness :
  ∃ rows : list ko_row,
    calc_kos (micom_returning {| df_index := ["3"; "7"];
                                 df_columns := [("3", [nan; nan]); ("7", [nan; nan])] |})
      [("R1", 5%float)] agora_sample [1; 10]%Z = Return rows
    ∧ rows = [].
Proof.
  destruct (calc_kos_success_any_table
              (micom_returning {| df_index := ["3"; "7"];
                                  df_columns := [("3", [nan; nan]); ("7", [nan; nan])] |})
              [("R1", 5%float)] agora_sample [1; 10]%Z
              [ {| row_id := PyInt 7; row_file := "seven.json" |};
                {| row_id := PyInt 3; row_file := "three.json" |} ]
              {| df_index := ["3"; "7"];
                 df_columns := [("3", [nan; nan]); ("7", [nan; nan])] |}
              eq_refl eq_refl) as (rows & E & _ & _ & Hempty).
  - unfold column_names. cbn. set_solver.
  - vm_compute. lia.
  - exists rows. split; [exact E|]. apply Hempty. repeat constructor.
Defined.

Lemma filter_stringified (agora_df : ModelDB) (i : Z) :
  filter (fun r => r.1 = i) (stringified agora_df)
  = stringified (filter (fun r => r.1 = i) agora_df).
Proof.
  unfold stringified, ModelDB in *.
  induction agora_df as [|[j row] db IH]; [reflexivity|].
  cbn [fmap list_fmap]. cbn [fst snd].
  destruct (decide (j = i)) as [Hj|Hj].
  - rewrite !filter_cons_True by exact Hj. cbn [fmap list_fmap fst snd]. f_equal. exact IH.
  - rewrite !filter_cons_False by exact Hj. exact IH.
Qed.

Lemma stringified_rows (db : list (Z * model_row)) :
  (stringified db).*2 = str_ids (db.*2).
Proof.
  unfold stringified, str_ids. rewrite <- !list_fmap_compose.
  apply list_fmap_ext. intros _ [j row] _. reflexivity.
Qed.

Lemma loc_stringified (agora_df : ModelDB) (indices : list Z) :
  loc (stringified agora_df) indices
  = match loc agora_df indices with
    | Return tax => Return (str_ids tax)
    | Raise e => Raise e
    end.
Proof.
  induction indices as [|i rest IH]; [reflexivity|].
  cbn [loc]. rewrite filter_stringified, IH.
  destruct (filter (fun r => r.1 = i) agora_df) as [|h hits]; [reflexivity|].
  pose proof (stringified_rows (h :: hits)) as Hrows.
  destruct (stringified (h :: hits)) as [|h' hits'] eqn:E; [discriminate E|].
  destruct (loc agora_df rest) as [tl|e]; [|reflexivity].
  cbn [mbind result_bind]. rewrite Hrows. unfold str_ids. rewrite fmap_app. reflexivity.
Qed.

Lemma str_ids_idemp (tax : list model_row) : str_ids (str_ids tax) = str_ids tax.
Proof. unfold str_ids. rewrite <- list_fmap_compose. reflexivity. Qed.

(** X9. [tax['id'].apply(str)] makes [calc_kos] blind to how the database
    stores its identifiers: a database whose [id] column holds the string of
    every identifier (["7"] for 7) gives the same result, rows and error
    alike, with any micom, medium and indices. *)
Theorem calc_kos_stringified (M : Micom) (medium_series : Series) (agora_df : ModelDB)
    (indices : list Z) :
  calc_kos M medium_series (stringified agora_df) indices
  = calc_kos M medium_series agora_df indices.
Proof.
  unfold calc_kos. rewrite loc_stringified.
  destruct (loc agora_df indices) as [tax|e]; [|reflexivity].
  cbn [mbind result_bind]. rewrite str_ids_idemp. reflexivity.
Qed.

Example calc_kos_stringified_example :
  calc_kos (micom_raising infeasible) [] (stringified agora_sample) [1; 10]%Z
  = calc_kos (micom_raising infeasible) [] agora_sample [1; 10]%Z.
Proof. vm_compute. reflexivity. Qed.

(** ** The community label as a key *)

Lemma append_String (c : ascii) (s t : string) :
  String c s +:+ t = String c (s +:+ t).
Proof. reflexivity. Qed.

Lemma has_underscore_append_sep (x s : string) :
  has_underscore (x +:+ String "_" s) = true.
Proof.
  induction x as [|c x IH]; [reflexivity|].
  rewrite append_String. cbn [has_underscore]. rewrite IH. apply orb_true_r.
Qed.

Lemma append_sep_inj (x x' s s' : string) :
  has_underscore x = false → has_underscore x' = false →
  x +:+ String "_" s = x' +:+ String "_" s' → x = x' ∧ s = s'.
Proof.
  revert x'. induction x as [|c x IH]; intros [|c' x'] Hx Hx' E.
  - injection E as ->. auto.
  - rewrite append_String in E. injection E as <- _.
    cbn in Hx'. discriminate.
  - rewrite append_String in E. injection E as -> _.
    cbn in Hx. discriminate.
  - rewrite !append_String in E. injection E as -> E.
    cbn [has_underscore] in Hx, Hx'.
    apply orb_false_elim in Hx as [_ Hx]. apply orb_false_elim in Hx' as [_ Hx'].
    destruct (IH x' Hx Hx' E) as [-> ->]. auto.
Qed.

Lemma concat_sep_cons2 (x y : string) (l : list string) :
  String.concat "_" (x :: y :: l) = x +:+ String "_" (String.concat "_" (y :: l)).
Proof. reflexivity. Qed.

Lemma concat_sep_nonempty (x : string) (l : list string) :
  x ≠ EmptyString → String.concat "_" (x :: l) ≠ EmptyString.
Proof.
  intros Hx. destruct l as [|y l]; [exact Hx|].
  rewrite concat_sep_cons2. destruct x as [|c x]; [congruence|].
  rewrite append_String. discriminate.
Qed.

Lemma concat_sep_inj (l l' : list string) :
  Forall plain_id l → Forall plain_id l' →
  String.concat "_" l = String.concat "_" l' → l = l'.
Proof.
  revert l'. induction l as [|x r IH]; intros [|x' r'] Hl Hl' E.
  - reflexivity.
  - apply Forall_cons in Hl' as [[Hne _] _]. symmetry in E.
    destruct (concat_sep_nonempty x' r' Hne E).
  - apply Forall_cons in Hl as [[Hne _] _].
    destruct (concat_sep_nonempty x r Hne E).
  - apply Forall_cons in Hl as [[_ Hx] Hr]. apply Forall_cons in Hl' as [[_ Hx'] Hr'].
    destruct r as [|y r], r' as [|y' r'].
    + cbn in E. congruence.
    + rewrite concat_sep_cons2 in E. cbn [String.concat] in E.
      rewrite E, has_underscore_append_sep in Hx. discriminate.
    + rewrite concat_sep_cons2 in E. cbn [String.concat] in E.
      rewrite <- E, has_underscore_append_sep in Hx'. discriminate.
    + rewrite !concat_sep_cons2 in E.
      destruct (append_sep_inj _ _ _ _ Hx Hx' E) as [-> E'].
      f_equal. apply IH; assumption.
Qed.

Lemma community_label_inj (ids ids' : list string) :
  Forall plain_id ids → Forall plain_id ids' →
  community_label ids = community_label ids' → ids ≡ₚ ids'.
Proof.
  intros H H' E. unfold community_label in E.
  assert (P : sorted ids ≡ₚ ids) by apply merge_sort_Permutation.
  assert (P' : sorted ids' ≡ₚ ids') by apply merge_sort_Permutation.
  apply concat_sep_inj in E.
  - rewrite <- P, <- P', E. reflexivity.
  - rewrite P. exact H.
  - rewrite P'. exact H'.
Qed.

(** Identifiers that hold an underscore can collide. *)
Example community_label_collision :
  community_label ["a_b"] = community_label ["a"; "b"].
Proof. reflexivity. Qed.

(** X10. The [SampleID] identifies the community when no member identifier
    is empty or holds an underscore: two calls (on any databases, micoms and
    media) that return rows with the same [SampleID] selected members with
    the same identifiers, up to their order. *)
Theorem calc_kos_label_identifies_members (M M' : Micom) (medium_series medium_series' : Series)
    (agora_df agora_df' : ModelDB) (indices indices' : list Z)
    (tax tax' : list model_row) (rows rows' : list ko_row) (r r' : ko_row) :
  loc agora_df indices = Return tax →
  loc agora_df' indices' = Return tax' →
  Forall plain_id (tax_ids tax) → Forall plain_id (tax_ids tax') →
  calc_kos M medium_series agora_df indices = Return rows →
  calc_kos M' medium_series' agora_df' indices' = Return rows' →
  r ∈ rows → r' ∈ rows' → SampleID r = SampleID r' →
  tax_ids tax ≡ₚ tax_ids tax'.
Proof.
  intros Hl Hl' Hp Hp' H H' Hr Hr' E.
  destruct (calc_kos_Return_label _ _ _ _ _ H) as (t & Ht & Hlab).
  destruct (calc_kos_Return_label _ _ _ _ _ H') as (t' & Ht' & Hlab').
  rewrite Hl in Ht. injection Ht as <-. rewrite Hl' in Ht'. injection Ht' as <-.
  rewrite (Hlab r Hr), (Hlab' r' Hr') in E.
  apply community_label_inj; assumption.
Qed.

Lemma calc_kos_label_identifies_members_witness :
  tax_ids [ {| row_id := PyInt 7; row_file := "seven.json" |};
            {| row_id := PyInt 3; row_file := "three.json" |} ]
  ≡ₚ tax_ids [ {| row_id := PyStr "3"; row_file := "three.json" |};
               {| row_id := PyStr "7"; row_file := "seven.json" |} ].
Proof.
  assert (Hp : ∀ a b : string, plain_id a → plain_id b → Forall plain_id [a; b])
    by (intros a b Ha Hb; apply Forall_cons; split; [exact Ha|];
        apply Forall_cons; split; [exact Hb | apply Forall_nil_2]).
  assert (H7 : plain_id "7") by (split; [discriminate | reflexivity]).
  assert (H3 : plain_id "3") by (split; [discriminate | reflexivity]).
  apply (calc_kos_label_identifies_members
           (micom_raising infeasible) (micom_returning ko_sample)
           [("R1", 5%float)] []
           agora_sample
           [ (4%Z, {| row_id := PyStr "3"; row_file := "three.json" |});
             (2%Z, {| row_id := PyStr "7"; row_file := "seven.json" |}) ]
           [1; 10]%Z [4; 2]%Z
           [ {| row_id := PyInt 7; row_file := "seven.json" |};
             {| row_id := PyInt 3; row_file := "three.json" |} ]
           [ {| row_id := PyStr "3"; row_file := "three.json" |};
             {| row_id := PyStr "7"; row_file := "seven.json" |} ]
           [ {| knockout := "7"; kept := "3"; kept_relative_change := nan;
                error := PyException infeasible; SampleID := "3_7" |};
             {| knockout := "3"; kept := "7"; kept_relative_change := nan;
                error := PyException infeasible; SampleID := "3_7" |} ]
           [ {| knockout := "7"; kept := "3"; kept_relative_change := (-0.2)%float;
                error := PyString "None"; SampleID := "3_7" |};
             {| knockout := "3"; kept := "7"; kept_relative_change := (-0.1)%float;
                error := PyString "None"; SampleID := "3_7" |} ]
           {| knockout := "7"; kept := "3"; kept_relative_change := nan;
              error := PyException infeasible; SampleID := "3_7" |}
           {| knockout := "7"; kept := "3"; kept_relative_change := (-0.2)%float;
              error := PyString "None"; SampleID := "3_7" |}).
  - reflexivity.
  - reflexivity.
  - apply Hp; assumption.
  - apply Hp; assumption.
  - vm_compute. reflexivity.
  - vm_compute. reflexivity.
  - left.
  - left.
  - reflexivity.
Defined.

(** * The notebook's run *)



(** * More on the rows of [calc_kos] *)

(** X12. The two fallback rows pair a member with itself exactly when the
    two selected rows have the same identifier (as when one index is listed
    twice): the handler does not filter self-pairs. *)
Theorem calc_kos_fallback_self_pairs (M : Micom) (medium_series : Series)
    (agora_df : ModelDB) (indices : list Z) (t1 t2 : model_row) (e : exception)
    (rows : list ko_row) :
  loc agora_df indices = Return [t1; t2] →
  knockout_sweep M (str_ids [t1; t2]) medium_series = Raise e →
  calc_kos M medium_series agora_df indices = Return rows →
  (∀ r, r ∈ rows → knockout r ≠ kept r) ↔ py_str (row_id t1) ≠ py_str (row_id t2).
Proof.
  intros Hl Hs H. rewrite (calc_kos_failure _ _ _ _ _ _ Hl Hs) in H.
  cbn in H. injection H as <-. split.
  - intros Hne Heq. apply (Hne _ (list_elem_of_here _ _)). cbn. exact Heq.
  - intros Hne r Hr.
    apply elem_of_cons in Hr as [->|Hr]; [exact Hne|].
    apply elem_of_cons in Hr as [->|Hr]; [cbn; congruence | inversion Hr].
Qed.

Lemma calc_kos_fallback_self_pairs_witness :
  ∃ rows : list ko_row,
    calc_kos (micom_raising infeasible) [] agora_sample [1; 1]%Z = Return rows
    ∧ length rows = 2
    ∧ ((∀ r, r ∈ rows → knockout r ≠ kept r) ↔ "7" ≠ "7").
Proof.
  destruct (calc_kos (micom_raising infeasible) [] agora_sample [1; 1]%Z)
    as [rows|e] eqn:E; [|vm_compute in E; discriminate E].
  exists rows. split; [reflexivity|]. split.
  - vm_compute in E. injection E as <-. reflexivity.
  - apply (calc_kos_fallback_self_pairs (micom_raising infeasible) [] agora_sample
             [1; 1]%Z {| row_id := PyInt 7; row_file := "seven.json" |}
             {| row_id := PyInt 7; row_file := "seven.json" |} infeasible rows
             eq_refl eq_refl E).
Defined.

Lemma NoDup_fst_zip {A B} (l : list A) (k : list B) : NoDup l → NoDup (zip l k).*1.
Proof.
  intros ND. revert k. induction ND as [|x l Hx ND IH]; intros [|y k];
    cbn; try constructor.
  - intros Hin. apply Hx. apply list_elem_of_fmap in Hin as ([a b] & -> & Hab).
    apply elem_of_zip_l in Hab. exact Hab.
  - apply IH.
Qed.

Lemma cells_pairs_NoDup (ko : DataFrame) :
  NoDup (df_index ko) → NoDup (column_names ko) →
  NoDup ((fun cell : string * string * float => cell.1) <$> cells ko).
Proof.
  unfold cells, wide_cells, column_names. intros Hi.
  induction (df_columns ko) as [|c cols IH]; intros Hc; [constructor|].
  rewrite fmap_cons in Hc. apply NoDup_cons in Hc as [Hc1 Hc].
  rewrite bind_cons, fmap_app. apply NoDup_app. split; [|split].
  - rewrite <- list_fmap_compose.
    assert (E : (fun cell : string * string * float => cell.1)
                ∘ (fun kv : string * float => (kv.1, c.1, kv.2)) <$> zip (df_index ko) c.2
                = (fun k : string => (k, c.1)) <$> (zip (df_index ko) c.2).*1)
      by (rewrite <- list_fmap_compose; reflexivity).
    rewrite E.
    apply NoDup_fmap_2; [intros a b [= ->]; reflexivity | apply NoDup_fst_zip, Hi].
  - intros [k n] H1 H2.
    apply list_elem_of_fmap in H1 as ([[k1 n1] v1] & [= -> ->] & H1).
    apply list_elem_of_fmap in H1 as ([k0 v0] & [= _ -> _] & _).
    apply list_elem_of_fmap in H2 as ([[k2 n2] v2] & [= -> E] & H2).
    apply list_elem_of_bind in H2 as (c' & H2 & Hc').
    apply list_elem_of_fmap in H2 as ([k3 v3] & [= _ -> _] & _).
    apply Hc1. rewrite E. apply list_elem_of_fmap. exists c'. auto.
  - apply IH, Hc.
Qed.

(** X13. Under micom's contract for the table, and when no member is named
    [knockout] or [kept_relative_change], the pair (knockout, kept) is a key
    of the returned rows: no two rows have the same pair, both components of
    every pair are identifiers of selected members, and the pairs are those
    of the cells that hold a value. *)
Theorem calc_kos_success_pairs_unique (M : Micom) (medium_series : Series)
    (agora_df : ModelDB) (indices : list Z) (tax : list model_row) (ko : DataFrame) :
  loc agora_df indices = Return tax →
  knockout_sweep M (str_ids tax) medium_series = Return ko →
  sweep_table (tax_ids tax) ko →
  "knockout" ∉ tax_ids tax →
  "kept_relative_change" ∉ tax_ids tax →
  ∃ rows : list ko_row,
    calc_kos M medium_series agora_df indices = Return rows
    ∧ NoDup ((fun r => (knockout r, kept r)) <$> rows)
    ∧ (∀ r, r ∈ rows → knockout r ∈ tax_ids tax ∧ kept r ∈ tax_ids tax)
    ∧ (∀ k c, (∃ r, r ∈ rows ∧ knockout r = k ∧ kept r = c)
              ↔ ∃ v, (k, c, v) ∈ cells ko ∧ is_nan v = false).
Proof.
  intros Hl Hs Ht Hk Hv.
  assert (Hm : melt (setitem_knockout ko) = Return (cells ko)).
  { apply melt_no_clash; eapply sweep_table_no_clash; eassumption. }
  destruct Ht as (ND & Hi & Hc & _ & _).
  eexists. split; [exact (calc_kos_success _ _ _ _ _ _ _ Hl Hs Hm)|]. split; [|split].
  - unfold set_SampleID, set_error. rewrite <- !list_fmap_compose.
    erewrite (list_fmap_ext _ (fun cell : string * string * float => cell.1)
                (dropna (cells ko))) by (intros _ [[k c] v] _; reflexivity).
    apply (sublist_NoDup _ ((fun cell : string * string * float => cell.1) <$> cells ko)).
    + apply cells_pairs_NoDup.
      * rewrite Hi. exact ND.
      * unfold column_names. rewrite Hc. exact ND.
    + apply fmap_sublist. unfold dropna. apply sublist_filter.
  - intros r Hr. apply elem_of_long_table in Hr as (Hin & _ & _).
    unfold dropna in Hin. apply list_elem_of_filter in Hin as [_ Hin].
    apply elem_of_wide_cells in Hin as [Hk' Hcn].
    rewrite Hi in Hk'. rewrite Hc in Hcn. auto.
  - intros k c. split.
    + intros (r & Hr & <- & <-). apply elem_of_long_table in Hr as (Hin & _ & _).
      unfold dropna in Hin. apply list_elem_of_filter in Hin as [Hn Hin]. eauto.
    + intros (v & Hin & Hn).
      exists {| knockout := k; kept := c; kept_relative_change := v;
                error := PyString "None"; SampleID := community_label (tax_ids tax) |}.
      split; [|auto]. apply elem_of_long_table. cbn. split; [|auto].
      unfold dropna. apply list_elem_of_filter. auto.
Qed.

Lemma calc_kos_success_pairs_unique_witness :
  ∃ rows : list ko_row,
    calc_kos (micom_returning ko_sample3) [("R1", 5%float)] agora_sample [1; 10; 5]%Z
    = Return rows
    ∧ NoDup ((fun r => (knockout r, kept r)) <$> rows)
    ∧ (∀ r, r ∈ rows → knockout r ∈ ["7"; "3"; "11"] ∧ kept r ∈ ["7"; "3"; "11"])
    ∧ (∀ k c, (∃ r, r ∈ rows ∧ knockout r = k ∧ kept r = c)
              ↔ ∃ v, (k, c, v) ∈ cells ko_sample3 ∧ is_nan v = false).
Proof.
  apply (calc_kos_success_pairs_unique (micom_returning ko_sample3) [("R1", 5%float)]
           agora_sample [1; 10; 5]%Z
           [ {| row_id := PyInt 7; row_file := "seven.json" |};
             {| row_id := PyInt 3; row_file := "three.json" |};
             {| row_id := PyStr "11"; row_file := "eleven.json" |} ]
           ko_sample3 eq_refl eq_refl sweep_table_ko_sample3).
  - cbn. set_solver.
  - cbn. set_solver.
Defined.
